(** * docgen: a shallow embedding of [.github/docgen.py]

    The generator reads templates from [.github/templates], samples
    pictures from the category directories of the repository root and
    composes the root README and one README per category.

    Modelling conventions.
    - A Python [str] is a Rocq [string]; each character stands for one
      code point in the range U+0000 .. U+00FF.
    - A Python [dict] is an association list in insertion order (the
      order in which the program iterates over it) whose keys are kept
      distinct by [dict_set].
    - Python code with effects is a function from a [state] (the files
      the program touches, the lines printed so far and the stream of
      random draws) to a [result]: a value and a new state, or a raised
      exception and the state at that point.
    - Built-ins of the interpreter ([str.format], [int], [repr],
      [str.casefold], [json.dumps], [random.shuffle], [Path.stem]) are
      modelled after CPython 3.11 on a POSIX system.
    - The script runs in the repository root, next to its own directory
      [.github]; an entry of a directory is a regular text file or a
      directory.
    - Three kinds of calls are left out of the model, and a run that
      reaches one has the result [Unmodelled]: a replacement field with
      an index, a conversion or a format specification, or an attribute
      of a value; a manifest entry whose name leads out of the template
      directory; a write to an absolute path or through [..]. *)

From Stdlib Require Import Ascii String ZArith NArith Lia.
From stdpp Require Import base option list strings.

Set Warnings "-register-all".

Local Open Scope string_scope.
Local Open Scope Z_scope.

(* ================================================================== *)
(** ** Characters and strings *)
(* ================================================================== *)

Module PyStr.

Definition code (c : ascii) : N := N_of_ascii c.

Definition is_digit (c : ascii) : bool :=
  (48 <=? code c)%N && (code c <=? 57)%N.

Definition digit_val (c : ascii) : Z := Z.of_N (code c) - 48.

(** [str.isspace] on U+0000 .. U+00FF, as [int] strips it: the ASCII
    blanks TAB LF VT FF CR SPACE, and NEL (U+0085) and NBSP (U+00A0). *)
Definition is_int_space (c : ascii) : bool :=
  let n := code c in
  ((9 <=? n)%N && (n <=? 13)%N) || (n =? 32)%N || (n =? 133)%N || (n =? 160)%N.

Fixpoint lstrip (s : string) : string :=
  match s with
  | String c s' => if is_int_space c then lstrip s' else s
  | EmptyString => EmptyString
  end.

(** [rstrip] returns [None] for a string of blanks only, so that the
    recursion can tell "everything after here was blank". *)
Fixpoint rstrip_aux (s : string) : option string :=
  match s with
  | EmptyString => None
  | String c s' =>
      match rstrip_aux s' with
      | Some r => Some (String c r)
      | None => if is_int_space c then None else Some (String c EmptyString)
      end
  end.

Definition rstrip (s : string) : string := default EmptyString (rstrip_aux s).

Definition strip (s : string) : string := rstrip (lstrip s).

(** Decimal digits with single underscores between them
    ([1_000] is fine, [_1], [1_] and [1__0] are not).  [prev_digit]
    tells whether the previous character was a digit; the result is the
    accumulated value and the number of digits read. *)
Fixpoint digits_value (s : string) (prev_digit : bool) (acc : Z) (n : nat)
  : option (Z * nat) :=
  match s with
  | EmptyString => if prev_digit then Some (acc, n) else None
  | String c s' =>
      if is_digit c then digits_value s' true (10 * acc + digit_val c) (S n)
      else if Ascii.eqb c "_" then
        if prev_digit then digits_value s' false acc n else None
      else None
  end.

(** The interpreter's default limit on the number of digits of a
    decimal literal converted by [int]. *)
Definition int_max_str_digits : nat := 4300.

Definition int_unsigned (s : string) : option Z :=
  match digits_value s false 0 0%nat with
  | Some (v, n) => if (n <=? int_max_str_digits)%nat then Some v else None
  | None => None
  end.

(** [int(s)] in base 10; [None] stands for [ValueError]. *)
Definition py_int (s : string) : option Z :=
  match strip s with
  | String "+" r => int_unsigned r
  | String "-" r => Z.opp <$> int_unsigned r
  | r => int_unsigned r
  end.

(** [s * n]: the empty string when [n <= 0]. *)
Definition str_repeat (s : string) (n : Z) : string :=
  Nat.iter (Z.to_nat n) (String.append s) EmptyString.

(** [sep.join(parts)] *)
Fixpoint str_join (sep : string) (parts : list string) : string :=
  match parts with
  | [] => EmptyString
  | [p] => p
  | p :: rest => p ++ sep ++ str_join sep rest
  end.

(** [s.startswith(p)] *)
Definition startswith (s p : string) : bool := String.prefix p s.

(** [s.split(sep)] for a one-character separator: never empty, a
    separator at either end yields an empty field. *)
Fixpoint str_split (sep : ascii) (s : string) : list string :=
  match s with
  | EmptyString => [EmptyString]
  | String c s' =>
      if Ascii.eqb c sep then EmptyString :: str_split sep s'
      else match str_split sep s' with
           | f :: fs => String c f :: fs
           | [] => [String c EmptyString]
           end
  end.

(** [s.casefold()], as the list of resulting code points: A-Z and the
    Latin-1 capitals go to lower case, U+00DF to [ss], U+00B5 to
    U+03BC. *)
Definition casefold_char (c : ascii) : list N :=
  let n := code c in
  if ((65 <=? n)%N && (n <=? 90)%N) then [(n + 32)%N]
  else if ((192 <=? n)%N && (n <=? 222)%N && negb (n =? 215)%N) then [(n + 32)%N]
  else if (n =? 223)%N then [115%N; 115%N]
  else if (n =? 181)%N then [956%N]
  else [n].

Fixpoint casefold (s : string) : list N :=
  match s with
  | EmptyString => []
  | String c s' => casefold_char c ++ casefold s'
  end.

(** [a.casefold() == b.casefold()] *)
Definition casefold_eq (a b : string) : bool :=
  bool_decide (casefold a = casefold b).

Definition hex_digit (n : N) : ascii :=
  if (n <? 10)%N then ascii_of_N (48 + n) else ascii_of_N (87 + n).

(** Two lower-case hexadecimal digits. *)
Definition hex2 (n : N) : string :=
  String (hex_digit (n / 16)) (String (hex_digit (n mod 16)) EmptyString).

(** [str.isprintable] on U+0000 .. U+00FF *)
Definition is_printable (c : ascii) : bool :=
  let n := code c in
  ((32 <=? n)%N && (n <=? 126)%N) || ((161 <=? n)%N && negb (n =? 173)%N).

Fixpoint contains_char (c : ascii) (s : string) : bool :=
  match s with
  | EmptyString => false
  | String d s' => Ascii.eqb c d || contains_char c s'
  end.

Definition repr_char (quote c : ascii) : string :=
  if Ascii.eqb c quote || Ascii.eqb c "\" then String "\" (String c EmptyString)
  else if (code c =? 9)%N then "\t"
  else if (code c =? 10)%N then "\n"
  else if (code c =? 13)%N then "\r"
  else if is_printable c then String c EmptyString
  else "\x" ++ hex2 (code c).

Fixpoint repr_body (quote : ascii) (s : string) : string :=
  match s with
  | EmptyString => EmptyString
  | String c s' => repr_char quote c ++ repr_body quote s'
  end.

Definition dquote : ascii := ascii_of_N 34.

(** [repr(s)]: single quotes, unless the string holds a single quote
    and no double quote. *)
Definition repr (s : string) : string :=
  let quote : ascii :=
    if contains_char "'" s && negb (contains_char dquote s) then dquote
    else "'"%char in
  String quote (repr_body quote s ++ String quote EmptyString).

(** [Path(name).stem] for a single path component: the name up to its
    last dot, when that dot is neither the first nor the last
    character. *)
Fixpoint last_dot (s : string) (i : nat) (found : option nat) : option nat :=
  match s with
  | EmptyString => found
  | String c s' => last_dot s' (S i) (if Ascii.eqb c "." then Some i else found)
  end.

Definition stem (name : string) : string :=
  match last_dot name 0%nat None with
  | Some i =>
      if (0 <? i)%nat && (i <? String.length name - 1)%nat
      then String.substring 0 i name else name
  | None => name
  end.

End PyStr.

(* ================================================================== *)
(** ** Dictionaries *)
(* ================================================================== *)

(** A [dict] with [str] keys, in insertion order. *)
Definition dict (V : Type) : Type := list (string * V).

Section Dict.
Context {V : Type}.

(** [d.get(k)]; [d[k]] raises [KeyError] where this is [None]. *)
Fixpoint dict_get (k : string) (d : dict V) : option V :=
  match d with
  | [] => None
  | (k', v) :: d' => if String.eqb k k' then Some v else dict_get k d'
  end.

(** [d[k] = v]: an existing key keeps its position. *)
Fixpoint dict_set (k : string) (v : V) (d : dict V) : dict V :=
  match d with
  | [] => [(k, v)]
  | (k', v') :: d' =>
      if String.eqb k k' then (k', v) :: d' else (k', v') :: dict_set k v d'
  end.

(** [a | b]: a copy of [a] updated with the items of [b]. *)
Definition dict_merge (a b : dict V) : dict V :=
  fold_left (fun acc kv => dict_set kv.1 kv.2 acc) b a.

Definition dict_keys (d : dict V) : list string := d.*1.

(** [k in d] *)
Definition dict_mem (k : string) (d : dict V) : bool :=
  match dict_get k d with Some _ => true | None => false end.

(** The invariant of every dictionary: no key occurs twice. *)
Definition dict_wf (d : dict V) : Prop := NoDup (dict_keys d).
End Dict.

(* ================================================================== *)
(** ** Exceptions and [str.format] *)
(* ================================================================== *)

Inductive exn : Type :=
  | KeyError (key : string)
  | ValueError
  | IndexError
  | TypeError
  | AttributeError
  | FileNotFoundError
  | NotADirectoryError
  | IsADirectoryError.

(** What a built-in without side effects does: it returns, it raises,
    or the call leaves the fragment of the built-in that is modelled. *)
Inductive outcome (A : Type) : Type :=
  | Returns (a : A)
  | Raises (e : exn)
  | Outside.
Arguments Returns {A} a.
Arguments Raises {A} e.
Arguments Outside {A}.

Definition outcome_map {A B} (f : A -> B) (o : outcome A) : outcome B :=
  match o with
  | Returns a => Returns (f a)
  | Raises e => Raises e
  | Outside => Outside
  end.

Module Format.

(** The largest index a format string may name ([PY_SSIZE_T_MAX] of a
    64-bit interpreter). *)
Definition ssize_t_max : Z := 2 ^ 63 - 1.

Fixpoint all_digits (s : string) : bool :=
  match s with
  | EmptyString => true
  | String c s' => PyStr.is_digit c && all_digits s'
  end.

Fixpoint decimal_value (s : string) (acc : Z) : Z :=
  match s with
  | EmptyString => acc
  | String c s' => decimal_value s' (10 * acc + PyStr.digit_val c)
  end.

(** The part of a field name before its first dot, and whether a dot
    (an attribute access) follows. *)
Fixpoint split_first (s : string) : string * bool :=
  match s with
  | EmptyString => (EmptyString, false)
  | String c s' =>
      if Ascii.eqb c "." then (EmptyString, true)
      else let '(f, dot) := split_first s' in (String c f, dot)
  end.

(** The object a replacement field names, for a call
    to [format] with keyword arguments only: an empty or
    numeric name asks for a positional argument, which does not exist;
    any other name is looked up in [kwargs].  Attributes of the value
    found are outside the modelled fragment. *)
Definition get_field (name : string) (kwargs : dict string) : outcome string :=
  let '(first, dot) := split_first name in
  if String.eqb first EmptyString then Raises IndexError
  else if all_digits first then
    if decimal_value first 0 <=? ssize_t_max then Raises IndexError
    else Raises ValueError
  else match dict_get first kwargs with
       | None => Raises (KeyError first)
       | Some v => if dot then Outside else Returns v
       end.

(** [str.format] called on [fmt] with the keyword arguments [kwargs]
    and no positional argument, scanning [fmt] from left to right.
    [field = None]: literal text, where a doubled brace stands for one
    brace and a single closing brace is an error.
    [field = Some name]: inside a replacement field whose name so far
    is [name].  Index access, conversions and format specifications
    ([[], [!], [:]) are outside the modelled fragment. *)
Fixpoint format_from (field : option string) (fmt : string)
    (kwargs : dict string) : outcome string :=
  match field with
  | None =>
      match fmt with
      | EmptyString => Returns EmptyString
      | String "{" (String "{" rest) =>
          outcome_map (String "{") (format_from None rest kwargs)
      | String "{" EmptyString => Raises ValueError
      | String "{" rest => format_from (Some EmptyString) rest kwargs
      | String "}" (String "}" rest) =>
          outcome_map (String "}") (format_from None rest kwargs)
      | String "}" _ => Raises ValueError
      | String c rest => outcome_map (String c) (format_from None rest kwargs)
      end
  | Some name =>
      match fmt with
      | EmptyString => Raises ValueError
      | String "{" _ => Raises ValueError
      | String "[" _ | String "!" _ | String ":" _ => Outside
      | String "}" rest =>
          match get_field name kwargs with
          | Returns v =>
              outcome_map (String.append v) (format_from None rest kwargs)
          | Raises e => Raises e
          | Outside => Outside
          end
      | String c rest =>
          format_from (Some (name ++ String c EmptyString)) rest kwargs
      end
  end.

Definition format (fmt : string) (kwargs : dict string) : outcome string :=
  format_from None fmt kwargs.

End Format.

(* ================================================================== *)
(** ** Files, state and the monad of effects *)
(* ================================================================== *)

(** An entry of the working directory: a regular file with its text,
    or a directory with its entries in the order [listdir] reports
    them. *)
Inductive node : Type :=
  | File (content : string)
  | Dir (entries : list (string * node)).

(** A decoded JSON value, as [json.loads] returns it. *)
Inductive json : Type :=
  | JNull
  | JBool (b : bool)
  | JNumber (literal : string)
  | JString (s : string)
  | JArray (items : list json)
  | JObject (members : list (string * json)).

(** [.github/templates.json]: absent; present but reading or decoding
    it raises; present and decoded. *)
Inductive manifest_file : Type :=
  | ManifestAbsent
  | ManifestInvalid
  | ManifestJson (v : json).

(** The world of one run.  [root] is the working directory (the
    repository root).  The directory [.github], which holds the script
    itself, is represented by [templates_dir] (the text files of
    [.github/templates], [None] while that directory does not exist)
    and [manifest].  [stdout] collects the printed lines, [rng] is the
    stream of numbers the random generator will draw from. *)
Record state : Type := {
  root : dict node;
  templates_dir : option (dict string);
  manifest : manifest_file;
  stdout : list string;
  rng : list nat
}.

Definition set_root (r : dict node) (s : state) : state :=
  {| root := r; templates_dir := templates_dir s; manifest := manifest s;
     stdout := stdout s; rng := rng s |}.
Definition set_templates_dir (t : option (dict string)) (s : state) : state :=
  {| root := root s; templates_dir := t; manifest := manifest s;
     stdout := stdout s; rng := rng s |}.
Definition set_stdout (o : list string) (s : state) : state :=
  {| root := root s; templates_dir := templates_dir s; manifest := manifest s;
     stdout := o; rng := rng s |}.
Definition set_rng (r : list nat) (s : state) : state :=
  {| root := root s; templates_dir := templates_dir s; manifest := manifest s;
     stdout := stdout s; rng := r |}.

(** The result of running a piece of the program: it returns [a] in
    state [s]; it raises [e] in state [s]; or it reaches a call whose
    behaviour is outside the modelled fragment. *)
Inductive result (A : Type) : Type :=
  | Ok (a : A) (s : state)
  | Raise (e : exn) (s : state)
  | Unmodelled.
Arguments Ok {A} a s.
Arguments Raise {A} e s.
Arguments Unmodelled {A}.

Definition M (A : Type) : Type := state -> result A.

Definition ret {A} (a : A) : M A := fun s => Ok a s.

Definition bind {A B} (m : M A) (k : A -> M B) : M B :=
  fun s => match m s with
           | Ok a s' => k a s'
           | Raise e s' => Raise e s'
           | Unmodelled => Unmodelled
           end.

Definition raise {A} (e : exn) : M A := fun s => Raise e s.

Definition unmodelled {A} : M A := fun _ => Unmodelled.

Notation "x <- m ;; k" := (bind m (fun x => k))
  (at level 100, m at next level, k at level 200, right associativity).

Definition lift {A} (o : outcome A) : M A :=
  match o with
  | Returns a => ret a
  | Raises e => raise e
  | Outside => unmodelled
  end.

(** [try: m  except KeyError as e: h(e)] *)
Definition try_except_KeyError {A} (m : M A) (h : string -> M A) : M A :=
  fun s => match m s with
           | Raise (KeyError k) s' => h k s'
           | r => r
           end.

(** A [for] loop that updates its local variables [acc]. *)
Fixpoint foldM {A B} (body : B -> A -> M B) (acc : B) (l : list A) : M B :=
  match l with
  | [] => ret acc
  | x :: l' => acc' <- body acc x ;; foldM body acc' l'
  end.

Fixpoint mapM {A B} (f : A -> M B) (l : list A) : M (list B) :=
  match l with
  | [] => ret []
  | x :: l' => y <- f x ;; ys <- mapM f l' ;; ret (y :: ys)
  end.

Fixpoint for_each {A} (body : A -> M unit) (l : list A) : M unit :=
  match l with
  | [] => ret tt
  | x :: l' => _ <- body x ;; for_each body l'
  end.

(** [d[k]] *)
Definition getitem {V} (k : string) (d : dict V) : M V :=
  match dict_get k d with
  | Some v => ret v
  | None => raise (KeyError k)
  end.

(** [int(s)] *)
Definition int (s : string) : M Z :=
  match PyStr.py_int s with
  | Some z => ret z
  | None => raise ValueError
  end.

Definition print (line : string) : M unit :=
  fun s => Ok tt (set_stdout (stdout s ++ [line]) s).

(** The newline character. *)
Definition nl : string := String (ascii_of_N 10) EmptyString.

(* ------------------------------------------------------------------ *)
(** *** The file system *)

(** [listdir(".")] *)
Definition listdir_cwd : M (list string) :=
  fun s => Ok (dict_keys (root s)) s.

(** [isfile(name)] for an entry name of the working directory *)
Definition isfile (name : string) : M bool :=
  fun s => Ok (match dict_get name (root s) with
               | Some (File _) => true
               | _ => false
               end) s.

(** [listdir(name)] for an entry name of the working directory *)
Definition listdir (name : string) : M (list string) :=
  fun s => match dict_get name (root s) with
           | Some (Dir entries) => Ok (dict_keys entries) s
           | Some (File _) => Raise NotADirectoryError s
           | None => Raise FileNotFoundError s
           end.

(** A name that denotes a file directly inside the directory it is
    joined to: not empty, not [.] or [..], without a slash or a NUL. *)
Definition plain_name (name : string) : bool :=
  negb (String.eqb name EmptyString) && negb (String.eqb name ".")
  && negb (String.eqb name "..")
  && negb (PyStr.contains_char "/" name)
  && negb (PyStr.contains_char (ascii_of_N 0) name).

(** [templates_dir.mkdir(exist_ok=True)] *)
Definition mkdir_templates : M unit :=
  fun s => match templates_dir s with
           | Some _ => Ok tt s
           | None => Ok tt (set_templates_dir (Some []) s)
           end.

(** [(templates_dir / name).exists()]; a name that leads out of the
    template directory is outside the modelled fragment. *)
Definition template_exists (name : string) : M bool :=
  fun s => if plain_name name
           then Ok (match templates_dir s with
                    | Some files => dict_mem name files
                    | None => false
                    end) s
           else Unmodelled.

(** [(templates_dir / name).write_text(content)]; a new file is listed
    after the files already there. *)
Definition write_template (name content : string) : M unit :=
  fun s => if plain_name name
           then match templates_dir s with
                | Some files =>
                    Ok tt (set_templates_dir (Some (dict_set name content files)) s)
                | None => Raise FileNotFoundError s
                end
           else Unmodelled.

(** [listdir(".github/templates")] *)
Definition listdir_templates : M (list string) :=
  fun s => match templates_dir s with
           | Some files => Ok (dict_keys files) s
           | None => Raise FileNotFoundError s
           end.

(** [Path(f".github/templates/{name}").read_text()] for a listed name *)
Definition read_template (name : string) : M string :=
  fun s => match templates_dir s with
           | Some files =>
               match dict_get name files with
               | Some content => Ok content s
               | None => Raise FileNotFoundError s
               end
           | None => Raise FileNotFoundError s
           end.

(** The components of a relative path as [Path] normalises them: empty
    components and [.] are dropped. *)
Definition path_parts (path : string) : list string :=
  filter (fun c => c <> EmptyString /\ c <> ".") (PyStr.str_split "/" path).

(** Writing [content] at the place [parts] name below [entries]. *)
Fixpoint tree_write (parts : list string) (content : string)
    (entries : dict node) : exn + dict node :=
  match parts with
  | [] => inl IsADirectoryError
  | [name] =>
      match dict_get name entries with
      | Some (Dir _) => inl IsADirectoryError
      | _ => inr (dict_set name (File content) entries)
      end
  | d :: rest =>
      match dict_get d entries with
      | Some (Dir below) =>
          match tree_write rest content below with
          | inr below' => inr (dict_set d (Dir below') entries)
          | inl e => inl e
          end
      | Some (File _) => inl NotADirectoryError
      | None => inl FileNotFoundError
      end
  end.

(** [Path(path).write_text(content)] for a path relative to the
    working directory; absolute paths and paths through [..] are
    outside the modelled fragment. *)
Definition write_text (path content : string) : M unit :=
  fun s =>
    if PyStr.startswith path "/" || bool_decide (".." ∈ path_parts path)
    then Unmodelled
    else match tree_write (path_parts path) content (root s) with
         | inr r => Ok tt (set_root r s)
         | inl e => Raise e s
         end.

(* ================================================================== *)
(** ** The program *)
(* ================================================================== *)

(** A picture: [Path(name)] for an entry name of a category
    directory; [str] of it is the name itself. *)
Definition Path : Type := string.

(** [l[:k]] *)
Definition slice_to {A} (l : list A) (k : Z) : list A :=
  if 0 <=? k then take (Z.to_nat k) l
  else take (length l - Z.to_nat (- k)) l.

(** Line 20: a string is split at the colons, a list is taken as it
    is. *)
Definition split_exclude (exclude : string + list string) : list string :=
  match exclude with
  | inl s => PyStr.str_split ":" s
  | inr l => l
  end.

(** [categorical_wallpapers]: the categories are the entries of the
    working directory that do not start with a dot, are not regular
    files and are not excluded; the pictures of a category are its
    entries other than [README.md]. *)
Definition categorical_wallpapers (exclude : string + list string)
  : M (dict (list Path)) :=
  let exclude := split_exclude exclude in
  entries <- listdir_cwd ;;
  foldM (fun (acc : dict (list Path)) category =>
           if PyStr.startswith category "." then ret acc
           else
             f <- isfile category ;;
             if f then ret acc
             else if bool_decide (category ∈ exclude) then ret acc
             else
               pictures <- listdir category ;;
               ret (dict_set category
                      (filter (fun picture => picture <> "README.md") pictures)
                      acc))
        [] entries.

(** The same scan as a function of the working directory alone. *)
Definition is_category (r : dict node) (exclude : list string)
    (name : string) : bool :=
  negb (PyStr.startswith name ".")
  && match dict_get name r with Some (File _) => false | _ => true end
  && negb (bool_decide (name ∈ exclude)).

Definition pictures_of (r : dict node) (name : string) : list Path :=
  match dict_get name r with
  | Some (Dir entries) =>
      filter (fun picture => picture <> "README.md") (dict_keys entries)
  | _ => []
  end.

Definition scan (exclude : string + list string) (r : dict node)
  : dict (list Path) :=
  fold_left (fun acc name =>
               if is_category r (split_exclude exclude) name
               then dict_set name (pictures_of r name) acc else acc)
            (dict_keys r) [].

(** The warnings of [create_default_templates]. *)
Definition warn_manifest_invalid : string :=
  "Warning: templates.json is invalid. Please check the JSON format.".
Definition warn_manifest_absent : string :=
  "Warning: templates.json not found. Please create the templates configuration file.".

(** [default_templates.items()] *)
Definition json_items (v : json) : M (list (string * json)) :=
  match v with
  | JObject members => ret members
  | _ => raise AttributeError
  end.

(** The strings of a list of JSON values, if they all are strings. *)
Fixpoint json_strings (items : list json) : option (list string) :=
  match items with
  | [] => Some []
  | JString s :: rest => cons s <$> json_strings rest
  | _ :: _ => None
  end.

(** The text written for a manifest value: a list is joined with
    newlines; joining or writing anything but strings raises
    [TypeError]. *)
Definition template_text (content : json) : M string :=
  match content with
  | JArray items =>
      match json_strings items with
      | Some lines => ret (PyStr.str_join nl lines)
      | None => raise TypeError
      end
  | JString s => ret s
  | _ => raise TypeError
  end.

(** Lines 45-49: one entry of the manifest. *)
Definition create_template (item : string * json) : M unit :=
  let '(template_name, content) := item in
  present <- template_exists template_name ;;
  if present then ret tt
  else
    text <- template_text content ;;
    write_template template_name text.

(** [.github/templates.json] as line 34-36 find it. *)
Definition read_manifest : M manifest_file := fun s => Ok (manifest s) s.

Definition create_default_templates : M unit :=
  _ <- mkdir_templates ;;
  found <- read_manifest ;;
  match found with
  | ManifestJson default_templates =>
      members <- json_items default_templates ;;
      for_each create_template members
  | ManifestInvalid => print warn_manifest_invalid
  | ManifestAbsent => print warn_manifest_absent
  end.

Definition get_templates : M (dict string) :=
  _ <- create_default_templates ;;
  names <- listdir_templates ;;
  foldM (fun (templates : dict string) template =>
           content <- read_template template ;;
           ret (dict_set template content templates))
        [] names.

(** [randbelow(n)] of [random.shuffle], for [0 < n]: the next number
    of the stream, reduced below [n]; a stream that has run out gives
    0, so that the streams cover every sequence of draws of a run. *)
Definition randbelow (n : nat) : M nat :=
  fun s => match rng s with
           | [] => Ok 0%nat s
           | r :: rest => Ok (r mod n)%nat (set_rng rest s)
           end.

(** [x[i], x[j] = x[j], x[i]] *)
Definition swap {A} (x : list A) (i j : nat) : list A :=
  match x !! i, x !! j with
  | Some a, Some b => <[j := a]> (<[i := b]> x)
  | _, _ => x
  end.

(** [for i in reversed(range(1, n + 1)): j = randbelow(i + 1); swap] *)
Fixpoint shuffle_from {A} (i : nat) (x : list A) : M (list A) :=
  match i with
  | O => ret x
  | S i' => j <- randbelow (S i) ;; shuffle_from i' (swap x i j)
  end.

(** [random.shuffle(x)]; the result is the list object [x] after the
    call. *)
Definition shuffle {A} (x : list A) : M (list A) :=
  shuffle_from (length x - 1) x.

(** [generate_shuffled].  The lists of [categories] are shuffled in
    place; the callers pass a dictionary they do not use again, so only
    [results] is returned. *)
Definition generate_shuffled (config : dict string)
    (categories : dict (list Path)) : M (dict (list Path)) :=
  choose_str <- getitem "choose" config ;;
  choose <- int choose_str ;;
  foldM (fun (results : dict (list Path)) '(category, pictures) =>
           pictures' <- shuffle pictures ;;
           ret (dict_set category (slice_to pictures' choose) results))
        [] categories.

(** The value a template is primed to: a string, or the dictionary
    that [handle_category] returns. *)
Inductive pyval : Type :=
  | VStr (s : string)
  | VDict (d : dict string).

Definition handler : Type := string -> string -> dict string -> M pyval.

Definition warn_missing_variable (template key : string) : string :=
  "Warning: Template " ++ template ++ " needs variable " ++ PyStr.repr key
  ++ " that's not in config. Using template as-is.".

(** The body of the loop of [prime_templates]; [fmt] is the template's
    text (the variable [string] of the source). *)
Definition prime_template (config : dict string) (handlers : dict handler)
    (result : dict pyval) (item : string * string) : M (dict pyval) :=
  let '(template, fmt) := item in
  match dict_get template handlers with
  | Some h =>
      v <- h template fmt config ;;
      ret (dict_set template v result)
  | None =>
      try_except_KeyError
        (text <- lift (Format.format fmt config) ;;
         ret (dict_set template (VStr text) result))
        (fun e =>
           _ <- print (warn_missing_variable template e) ;;
           ret (dict_set template (VStr fmt) result))
  end.

Definition prime_templates (config : dict string) (handlers : dict handler)
    (templates : dict string) : M (dict pyval) :=
  foldM (prime_template config handlers) [] templates.

Definition heading (category spacing : string) : string :=
  "## " ++ category ++ spacing.

Definition browse_link (category spacing : string) : string :=
  "[Browse](../" ++ category ++ "/README.md)" ++ spacing.

(** Line 98: the category name, overridden by the configuration. *)
Definition body_merged (category : string) (config : dict string)
  : dict string :=
  dict_merge [("category", category)] config.

(** Lines 101-102: the picture is stored into [merged]. *)
Definition set_random (merged : dict string) (picture : Path) : dict string :=
  dict_set "random_stem" (PyStr.stem picture) (dict_set "random" picture merged).

(** Lines 101-103 of [handle_body]: one picture of a category. *)
Definition body_picture (fmt : string)
    (acc : dict string * list string) (picture : Path)
  : M (dict string * list string) :=
  let '(merged, results) := acc in
  let merged := set_random merged picture in
  text <- lift (Format.format fmt merged) ;;
  ret (merged, (results ++ [text])%list).

(** Lines 98-105 of [handle_body]: one category. *)
Definition body_category (fmt : string) (config : dict string)
    (spacing : string) (results : list string)
    (item : string * list Path) : M (list string) :=
  let '(category, pictures) := item in
  let merged := body_merged category config in
  let results := (results ++ [heading category spacing])%list in
  after <- foldM (body_picture fmt) (merged, results) pictures ;;
  let results := after.2 in
  browse <- getitem "browse" config ;;
  if PyStr.casefold_eq browse "True"
  then ret (results ++ [browse_link category spacing])%list
  else ret results.

Definition handle_body (_ : string) (fmt : string) (config : dict string)
  : M pyval :=
  exclude <- getitem "exclude" config ;;
  categories <- categorical_wallpapers (inl exclude) ;;
  shuffled <- generate_shuffled config categories ;;
  spacing_str <- getitem "spacing" config ;;
  n <- int spacing_str ;;
  let spacing := PyStr.str_repeat nl n in
  results <- foldM (body_category fmt config spacing) [] shuffled ;;
  ret (VStr (PyStr.str_join spacing results)).

Definition default_header : string := "# {category}" ++ nl ++ nl.

(** Line 117: the configuration, overridden by the category name. *)
Definition header_merged (config : dict string) (category : string)
  : dict string :=
  dict_merge config [("category", category)].

(** Line 121: the configuration, overridden by the picture and the
    category name. *)
Definition picture_merged (config : dict string) (category : string)
    (picture : Path) : dict string :=
  dict_merge config
    [("filepath", picture); ("filename", PyStr.stem picture);
     ("category", category)].

(** Lines 121-122 of [handle_category]: one picture of a category. *)
Definition category_picture (fmt : string) (config : dict string)
    (spacing category readme : string)
    (results : dict string) (picture : Path) : M (dict string) :=
  let merged := picture_merged config category picture in
  so_far <- getitem readme results ;;
  text <- lift (Format.format fmt merged) ;;
  ret (dict_set readme (so_far ++ text ++ spacing) results).

(** Lines 116-122 of [handle_category]: one category. *)
Definition category_readme (fmt header_template : string)
    (config : dict string) (spacing : string)
    (results : dict string) (item : string * list Path) : M (dict string) :=
  let '(category, pictures) := item in
  let readme := category ++ "/README.md" in
  header <- lift (Format.format header_template (header_merged config category)) ;;
  foldM (category_picture fmt config spacing category readme)
        (dict_set readme header results) pictures.

Definition handle_category (_ : string) (fmt : string)
    (config : dict string) : M pyval :=
  spacing_str <- getitem "spacing" config ;;
  n <- int spacing_str ;;
  let spacing := PyStr.str_repeat nl n in
  templates <- get_templates ;;
  let header_template :=
    default default_header (dict_get "category.header.md" templates) in
  categories <- categorical_wallpapers (inr []) ;;
  results <- foldM (category_readme fmt header_template config spacing)
                  [] categories ;;
  ret (VDict results).

(* ------------------------------------------------------------------ *)
(** *** [json.dumps] and the entry point *)

Definition json_escape_char (c : ascii) : string :=
  let n := PyStr.code c in
  if (n =? 34)%N then String "\" (String c EmptyString)
  else if (n =? 92)%N then "\\"
  else if (n =? 10)%N then "\n"
  else if (n =? 13)%N then "\r"
  else if (n =? 9)%N then "\t"
  else if (n =? 8)%N then "\b"
  else if (n =? 12)%N then "\f"
  else if ((32 <=? n)%N && (n <=? 126)%N) then String c EmptyString
  else "\u00" ++ PyStr.hex2 n.

Fixpoint json_escape (s : string) : string :=
  match s with
  | EmptyString => EmptyString
  | String c s' => json_escape_char c ++ json_escape s'
  end.

Definition dumps_str (s : string) : string :=
  String PyStr.dquote (json_escape s ++ String PyStr.dquote EmptyString).

Definition dumps_dict (d : dict string) : string :=
  "{" ++ PyStr.str_join ", "
           (map (fun kv => dumps_str kv.1 ++ ": " ++ dumps_str kv.2) d)
      ++ "}".

Definition dumps_val (v : pyval) : string :=
  match v with
  | VStr s => dumps_str s
  | VDict d => dumps_dict d
  end.

(** [dumps({"full": full, "partial": partial})] *)
Definition dumps_output (full : list pyval) (partial : pyval) : string :=
  "{" ++ dumps_str "full" ++ ": ["
      ++ PyStr.str_join ", " (map dumps_val full) ++ "], "
      ++ dumps_str "partial" ++ ": " ++ dumps_val partial ++ "}".

(** The strings of a list of values; [str.join] raises [TypeError] on
    anything else. *)
Fixpoint strings_of (vs : list pyval) : option (list string) :=
  match vs with
  | [] => Some []
  | VStr s :: rest => cons s <$> strings_of rest
  | VDict _ :: _ => None
  end.

(** [sep.join(vs)] *)
Definition join_values (sep : string) (vs : list pyval) : M string :=
  match strings_of vs with
  | Some parts => ret (PyStr.str_join sep parts)
  | None => raise TypeError
  end.

(** [v.items()] *)
Definition items (v : pyval) : M (list (string * string)) :=
  match v with
  | VDict d => ret d
  | VStr _ => raise AttributeError
  end.

(** The handlers that the entry point registers. *)
Definition handlers : dict handler :=
  [("body.category.md", handle_body); ("category.md", handle_category)].

(** Lines 131-133: the fixed sequence of the root document, and the
    value primed for [category.md]. *)
Definition compose (primed : dict pyval) : M (list pyval * pyval) :=
  full_templates <- mapM (fun item => getitem (item ++ ".md") primed)
                         ["heading"; "body.heading"; "body.category"; "sources"] ;;
  partial_template <- getitem "category.md" primed ;;
  ret (full_templates, partial_template).

(** Lines 135-140: the dry run prints, the real run writes. *)
Definition emit (CONFIG : dict string) (full_templates : list pyval)
    (partial_template : pyval) : M unit :=
  dry <- getitem "dry" CONFIG ;;
  if PyStr.casefold_eq dry "True"
  then print (dumps_output full_templates partial_template)
  else
    spacing_str <- getitem "spacing" CONFIG ;;
    n <- int spacing_str ;;
    text <- join_values (PyStr.str_repeat nl n) full_templates ;;
    _ <- write_text "README.md" text ;;
    readmes <- items partial_template ;;
    for_each (fun kv => write_text kv.1 kv.2) readmes.

(** The block under [if __name__ == "__main__"].  [config] is what
    [get_config] returned, [today] the formatted date, [templates] the
    default argument of [prime_templates]. *)
Definition main (config : dict string) (today : string)
    (templates : dict string) : M unit :=
  let CONFIG := dict_set "date" today config in
  primed <- prime_templates CONFIG handlers templates ;;
  composed <- compose primed ;;
  emit CONFIG composed.1 composed.2.

(** The script from top to bottom: the default argument
    [templates = get_templates()] of [prime_templates] is evaluated
    once, when line 75 defines the function; then the entry point
    runs. *)
Definition script (config : dict string) (today : string) : M unit :=
  templates <- get_templates ;;
  main config today templates.

(* ================================================================== *)
(** ** Notions used in the statements *)
(* ================================================================== *)

(** Exchanging two elements permutes the list: position [p] of the
    result is position [transpose i j p] of the list. *)
Definition transpose (i j p : nat) : nat :=
  if decide (p = i) then j else if decide (p = j) then i else p.

(** What [generate_shuffled] stores for one category: its name, and a
    prefix of some permutation of its pictures. *)
Definition sample_of (k : Z) (item result : string * list Path) : Prop :=
  result.1 = item.1 /\ exists p, p ≡ₚ item.2 /\ result.2 = slice_to p k.

(** [s'] differs from [s] at most in the random numbers left. *)
Definition draws (s s' : state) : Prop := s' = set_rng (rng s') s.

(** A computation that leaves the working directory as it is, however
    it ends. *)
Definition keeps_root {A} (m : M A) : Prop :=
  forall s, match m s with
            | Ok _ s' | Raise _ s' => root s' = root s
            | Unmodelled => True
            end.

(** Substitution of [raw] returns, or fails on a missing variable. *)
Definition substitutable (raw : string) (config : dict string) : bool :=
  match Format.format raw config with
  | Returns _ | Raises (KeyError _) => true
  | _ => false
  end.

(** What priming stores for a template without a handler. *)
Definition primed_text (raw : string) (config : dict string) : string :=
  match Format.format raw config with
  | Returns text => text
  | _ => raw
  end.

(** The warning priming prints for a template without a handler. *)
Definition missing_warning (config : dict string) (item : string * string)
  : list string :=
  match Format.format item.2 config with
  | Raises (KeyError key) => [warn_missing_variable item.1 key]
  | _ => []
  end.

(** The pieces [handle_body] emits for a category without sampled
    pictures. *)
Definition bare_category (spacing browse category : string) : list string :=
  heading category spacing
  :: (if PyStr.casefold_eq browse "True"
      then [browse_link category spacing] else []).

(** The names the entry point looks up in the primed result. *)
Definition required_templates : list string :=
  ["heading.md"; "body.heading.md"; "body.category.md"; "sources.md";
   "category.md"].

(** A state for the examples: one category with two pictures, the
    five templates of the entry point, an empty manifest. *)
Definition example_state : state :=
  {| root := [(".github", Dir []);
              ("nature", Dir [("lake.png", File "L"); ("README.md", File "R");
                              ("hill.jpg", File "H")]);
              ("LICENSE", File "MIT")];
     templates_dir :=
       Some [("heading.md", "# Wallpapers ({date})");
             ("body.heading.md", "Samples");
             ("body.category.md", "![{random_stem}]({category}/{random})");
             ("sources.md", "Sources: {credits}");
             ("category.md", "- {filename}")];
     manifest := ManifestJson (JObject []);
     stdout := [];
     rng := [3; 1; 4]%nat |}.

Definition example_config : dict string :=
  [("choose", "1"); ("exclude", "urban:space"); ("spacing", "2");
   ("browse", "True")].

(** A computation that never returns, and leaves the working directory
    as it is when it raises. *)
Definition aborts_keeping_root {A} (m : M A) : Prop :=
  forall s, match m s with
            | Ok _ _ => False
            | Raise _ s' => root s' = root s
            | Unmodelled => True
            end.

(** The file [name] is there in the template directory of [s]. *)
Definition template_present (s : state) (name : string) : Prop :=
  plain_name name = true
  /\ exists files, templates_dir s = Some files /\ dict_mem name files = true.


Definition example_categories : dict (list Path) :=
  [("nature", ["lake.png"; "hill.jpg"]); ("urban", ["street.png"])].

(** The same directory before its first bootstrap: two templates are
    missing and the manifest provides them. *)
Definition example_fresh_state : state :=
  {| root := root example_state;
     templates_dir := Some [("heading.md", "# Wallpapers ({date})")];
     manifest :=
       ManifestJson
         (JObject [("heading.md", JString "# Title");
                   ("sources.md", JArray [JString "Sources"; JString EmptyString]);
                   ("category.md", JString "- {filename}")]);
     stdout := [];
     rng := [] |}.

(** The same directory without a manifest. *)
Definition example_bare_state : state :=
  {| root := root example_state;
     templates_dir := templates_dir example_state;
     manifest := ManifestAbsent;
     stdout := [];
     rng := [] |}.

(* ================================================================== *)
(** * Properties *)
(* ================================================================== *)

(** ** Dictionaries *)

Section DictFacts.
Context {V : Type}.
Implicit Types (d : dict V) (k : string) (v : V).

Lemma dict_get_None k d : dict_get k d = None <-> k ∉ dict_keys d.
Proof.
  induction d as [|[k' v'] d IH]; simpl.
  - split; [intros _; apply not_elem_of_nil | done].
  - destruct (String.eqb_spec k k') as [->|Hne].
    + split; [done | intros []; left].
    + rewrite not_elem_of_cons. tauto.
Qed.

Lemma dict_get_Some_keys k d v : dict_get k d = Some v -> k ∈ dict_keys d.
Proof.
  intros H. destruct (decide (k ∈ dict_keys d)) as [|Hn]; [done|].
  apply dict_get_None in Hn. congruence.
Qed.

Lemma dict_get_elem k d v : dict_get k d = Some v -> (k, v) ∈ d.
Proof.
  induction d as [|[k' v'] d IH]; simpl; [done|].
  destruct (String.eqb_spec k k') as [->|Hne].
  - intros [= ->]. left.
  - intros H. right. auto.
Qed.

Lemma dict_elem_get k d v : dict_wf d -> (k, v) ∈ d -> dict_get k d = Some v.
Proof.
  unfold dict_wf, dict_keys.
  induction d as [|[k' v'] d IH]; simpl; intros Hwf Hin.
  - by apply elem_of_nil in Hin.
  - apply NoDup_cons in Hwf as [Hk' Hwf].
    apply elem_of_cons in Hin as [[= -> ->]|Hin].
    + by rewrite String.eqb_refl.
    + destruct (String.eqb_spec k k') as [->|Hne]; [|auto].
      destruct Hk'. change k' with ((k', v).1).
      by apply list_elem_of_fmap_2.
Qed.

Lemma dict_get_set_eq k v d : dict_get k (dict_set k v d) = Some v.
Proof.
  induction d as [|[k' v'] d IH]; simpl.
  - by rewrite String.eqb_refl.
  - destruct (String.eqb_spec k k') as [->|Hne]; simpl.
    + by rewrite String.eqb_refl.
    + by destruct (String.eqb_spec k k').
Qed.

Lemma dict_get_set_ne k k' v d :
  k <> k' -> dict_get k' (dict_set k v d) = dict_get k' d.
Proof.
  intros Hne. induction d as [|[k0 v0] d IH]; simpl.
  - by destruct (String.eqb_spec k' k) as [->|].
  - destruct (String.eqb_spec k k0) as [->|Hne0]; simpl.
    + by destruct (String.eqb_spec k' k0) as [->|].
    + by rewrite IH.
Qed.

Lemma dict_get_set k k' v d :
  dict_get k' (dict_set k v d)
  = if String.eqb k' k then Some v else dict_get k' d.
Proof.
  destruct (String.eqb_spec k' k) as [->|Hne].
  - apply dict_get_set_eq.
  - by apply dict_get_set_ne.
Qed.

(** Assigning to a new key appends an item. *)
Lemma dict_set_fresh k v d :
  dict_get k d = None -> dict_set k v d = (d ++ [(k, v)])%list.
Proof.
  induction d as [|[k' v'] d IH]; simpl; [done|].
  destruct (String.eqb_spec k k') as [->|Hne]; [done|].
  intros H. by rewrite IH.
Qed.

(** Assigning to an existing key keeps the keys and their order. *)
Lemma dict_keys_set_present k v d :
  k ∈ dict_keys d -> dict_keys (dict_set k v d) = dict_keys d.
Proof.
  unfold dict_keys.
  induction d as [|[k' v'] d IH]; simpl; intros Hin.
  - by apply elem_of_nil in Hin.
  - destruct (String.eqb_spec k k') as [->|Hne]; simpl; [done|].
    apply elem_of_cons in Hin as [?|Hin]; [done|]. f_equal. by apply IH.
Qed.

Lemma dict_keys_set_fresh k v d :
  k ∉ dict_keys d -> dict_keys (dict_set k v d) = (dict_keys d ++ [k])%list.
Proof.
  intros H. apply dict_get_None in H.
  rewrite (dict_set_fresh _ _ _ H). unfold dict_keys.
  by rewrite fmap_app.
Qed.

Lemma dict_set_wf k v d : dict_wf d -> dict_wf (dict_set k v d).
Proof.
  unfold dict_wf. intros Hwf.
  destruct (decide (k ∈ dict_keys d)) as [Hin|Hnin].
  - by rewrite dict_keys_set_present.
  - rewrite dict_keys_set_fresh by done.
    apply NoDup_app. split_and!; [done| |apply NoDup_singleton].
    intros x Hx ->%list_elem_of_singleton. done.
Qed.

Lemma dict_wf_nil : dict_wf ([] : dict V).
Proof. apply NoDup_nil_2. Qed.

Lemma dict_merge_wf (a b : dict V) : dict_wf a -> dict_wf (dict_merge a b).
Proof.
  unfold dict_merge. revert a.
  induction b as [|[k v] b IH]; simpl; intros a Ha; [done|].
  apply IH. by apply dict_set_wf.
Qed.

(** In [a | b] the items of [b] take precedence. *)
Lemma dict_get_merge k (a b : dict V) :
  dict_wf b ->
  dict_get k (dict_merge a b)
  = match dict_get k b with Some v => Some v | None => dict_get k a end.
Proof.
  unfold dict_merge, dict_wf, dict_keys. revert a.
  induction b as [|[k' v'] b IH]; simpl; intros a Hwf; [done|].
  apply NoDup_cons in Hwf as [Hk' Hwf].
  rewrite IH by done.
  destruct (String.eqb_spec k k') as [->|Hne].
  - apply dict_get_None in Hk'. rewrite Hk'. apply dict_get_set_eq.
  - rewrite dict_get_set_ne by done. done.
Qed.
End DictFacts.

(** ** The built-ins on examples *)

Example py_int_examples :
  PyStr.py_int " 12_000 " = Some 12000 /\ PyStr.py_int "-7" = Some (-7)
  /\ PyStr.py_int "two" = None /\ PyStr.py_int "1__0" = None
  /\ PyStr.py_int EmptyString = None.
Proof. repeat split. Qed.

Example repr_examples :
  PyStr.repr "credits" = "'credits'" /\ PyStr.repr "a\b" = "'a\\b'".
Proof. repeat split. Qed.

Example stem_examples :
  PyStr.stem "lake.png" = "lake" /\ PyStr.stem "a.tar.gz" = "a.tar"
  /\ PyStr.stem ".hidden" = ".hidden" /\ PyStr.stem "dot." = "dot.".
Proof. repeat split. Qed.

Example format_examples :
  let kwargs := [("category", "nature"); ("random", "lake.png")] in
  Format.format "![x]({category}/{random})" kwargs
  = Returns "![x](nature/lake.png)"
  /\ Format.format "{{literal}}" kwargs = Returns "{literal}"
  /\ Format.format "{credits}" kwargs = Raises (KeyError "credits")
  /\ Format.format "{credits}{" kwargs = Raises (KeyError "credits")
  /\ Format.format "{" kwargs = Raises ValueError
  /\ Format.format "a } b" kwargs = Raises ValueError
  /\ Format.format "{}" kwargs = Raises IndexError
  /\ Format.format "{0}" kwargs = Raises IndexError
  /\ Format.format "{category!r}" kwargs = Outside.
Proof. repeat split. Qed.

Example slice_to_examples :
  slice_to [1; 2; 3] 2 = [1; 2] /\ slice_to [1; 2; 3] 5 = [1; 2; 3]
  /\ slice_to [1; 2; 3] 0 = [] /\ slice_to [1; 2; 3] (-1) = [1; 2].
Proof. repeat split. Qed.

(** ** The monad *)

Lemma bind_Ok {A B} (m : M A) (k : A -> M B) s a s1 :
  m s = Ok a s1 -> bind m k s = k a s1.
Proof. unfold bind. by intros ->. Qed.

Lemma bind_Raise {A B} (m : M A) (k : A -> M B) s e s1 :
  m s = Raise e s1 -> bind m k s = Raise e s1.
Proof. unfold bind. by intros ->. Qed.

Lemma bind_Ok_inv {A B} (m : M A) (k : A -> M B) s b s2 :
  bind m k s = Ok b s2 -> exists a s1, m s = Ok a s1 /\ k a s1 = Ok b s2.
Proof. unfold bind. destruct (m s) as [a s1|e s1|]; [eauto|done|done]. Qed.

Lemma foldM_cons {A B} (body : B -> A -> M B) acc x l :
  foldM body acc (x :: l) = (acc' <- body acc x ;; foldM body acc' l).
Proof. done. Qed.

Lemma getitem_Some {V} k (d : dict V) v s :
  dict_get k d = Some v -> getitem k d s = Ok v s.
Proof. unfold getitem. by intros ->. Qed.

Lemma getitem_None {V} k (d : dict V) s :
  dict_get k d = None -> getitem k d s = Raise (KeyError k) s.
Proof. unfold getitem. by intros ->. Qed.

Lemma int_Some str z s : PyStr.py_int str = Some z -> int str s = Ok z s.
Proof. unfold int. by intros ->. Qed.

(** ** Shuffling *)

Lemma swap_length {A} (x : list A) i j : length (swap x i j) = length x.
Proof.
  unfold swap. destruct (x !! i), (x !! j); try done.
  by rewrite !length_insert.
Qed.

Lemma transpose_inj i j : Inj (=) (=) (transpose i j).
Proof. intros p q. unfold transpose. repeat case_decide; congruence. Qed.

Lemma swap_Permutation {A} (x : list A) i j : swap x i j ≡ₚ x.
Proof.
  unfold swap.
  destruct (x !! i) as [a|] eqn:Hi; [|done].
  destruct (x !! j) as [b|] eqn:Hj; [|done].
  apply Permutation_inj. split; [by rewrite !length_insert|].
  exists (transpose i j). split; [apply transpose_inj|].
  intros p. unfold transpose.
  assert (i < length x)%nat by (by eapply lookup_lt_Some).
  assert (j < length x)%nat by (by eapply lookup_lt_Some).
  destruct (decide (p = j)) as [->|Hpj].
  - rewrite list_lookup_insert_eq by (by rewrite length_insert).
    case_decide; by subst.
  - rewrite list_lookup_insert_ne by done.
    destruct (decide (p = i)) as [->|Hpi].
    + by rewrite list_lookup_insert_eq.
    + by rewrite list_lookup_insert_ne.
Qed.

Lemma randbelow_Ok n s : exists j s', randbelow n s = Ok j s'
  /\ root s' = root s /\ templates_dir s' = templates_dir s
  /\ manifest s' = manifest s /\ stdout s' = stdout s.
Proof. unfold randbelow. destruct (rng s); eauto 10. Qed.

(** [shuffle] always returns, and what it returns is a permutation;
    it draws random numbers and touches nothing else. *)
Lemma shuffle_from_Permutation {A} i (x : list A) s :
  exists x' s', shuffle_from i x s = Ok x' s' /\ x' ≡ₚ x
  /\ root s' = root s /\ templates_dir s' = templates_dir s
  /\ manifest s' = manifest s /\ stdout s' = stdout s.
Proof.
  revert x s. induction i as [|i IH]; intros x s; simpl.
  - exists x, s. done.
  - destruct (randbelow_Ok (S (S i)) s) as (j & s1 & Hj & ? & ? & ? & ?).
    destruct (IH (swap x (S i) j) s1) as (x' & s' & Hx' & Hp & ? & ? & ? & ?).
    exists x', s'. rewrite (bind_Ok _ _ _ _ _ Hj), Hx'.
    split_and!; [done| |congruence..].
    by rewrite Hp, swap_Permutation.
Qed.

Lemma shuffle_Permutation {A} (x : list A) s :
  exists x' s', shuffle x s = Ok x' s' /\ x' ≡ₚ x
  /\ root s' = root s /\ templates_dir s' = templates_dir s
  /\ manifest s' = manifest s /\ stdout s' = stdout s.
Proof. apply shuffle_from_Permutation. Qed.

(** ** The sampler *)

Lemma draws_refl s : draws s s.
Proof. by destruct s. Qed.

Lemma draws_trans s1 s2 s3 : draws s1 s2 -> draws s2 s3 -> draws s1 s3.
Proof. unfold draws. intros -> ->. done. Qed.

Lemma shuffle_draws {A} (x : list A) s :
  exists x' s', shuffle x s = Ok x' s' /\ x' ≡ₚ x /\ draws s s'.
Proof.
  destruct (shuffle_Permutation x s) as (x' & s' & H & Hp & ? & ? & ? & ?).
  exists x', s'. split_and!; [done..|].
  unfold draws. destruct s, s'; simpl in *. by subst.
Qed.

Lemma generate_loop k (categories acc : dict (list Path)) s :
  dict_wf categories ->
  (forall c, c ∈ dict_keys categories -> c ∉ dict_keys acc) ->
  exists res s',
    foldM (fun (results : dict (list Path)) '(category, pictures) =>
             pictures' <- shuffle pictures ;;
             ret (dict_set category (slice_to pictures' k) results))
          acc categories s = Ok (acc ++ res)%list s'
    /\ Forall2 (sample_of k) categories res /\ draws s s'.
Proof.
  revert acc s.
  induction categories as [|[c pics] categories IH]; intros acc s Hwf Hfresh.
  - exists [], s. rewrite app_nil_r. split_and!; [done|constructor|apply draws_refl].
  - apply NoDup_cons in Hwf as [Hc Hwf].
    destruct (shuffle_draws pics s) as (p & s1 & Hs & Hp & Hd1).
    rewrite foldM_cons. unfold bind at 1. cbn beta iota.
    rewrite (bind_Ok _ _ _ _ _ Hs). unfold ret at 1.
    assert (Hacc : dict_get c acc = None).
    { apply dict_get_None, Hfresh. left. }
    rewrite (dict_set_fresh _ _ _ Hacc).
    destruct (IH (acc ++ [(c, slice_to p k)])%list s1 Hwf) as (res & s' & Hf & HF & Hd2).
    { intros c' Hc'. unfold dict_keys. rewrite fmap_app, elem_of_app.
      intros [Hin|Hin].
      - eapply Hfresh; [right; exact Hc'|exact Hin].
      - apply list_elem_of_singleton in Hin. simpl in Hin. by subst. }
    exists ((c, slice_to p k) :: res), s'.
    rewrite Hf, <- app_assoc. split_and!; [done| |by eapply draws_trans].
    constructor; [|done]. split; [done|]. by exists p.
Qed.

Lemma Forall2_sample_keys k categories res :
  Forall2 (sample_of k) categories res -> dict_keys res = dict_keys categories.
Proof.
  unfold dict_keys. induction 1 as [|x y l l' [Hk _] _ IH]; [done|].
  rewrite !fmap_cons. by f_equal.
Qed.

Lemma Forall2_sample_elem k categories res c pics :
  Forall2 (sample_of k) categories res -> (c, pics) ∈ categories ->
  exists sample p, (c, sample) ∈ res /\ p ≡ₚ pics /\ sample = slice_to p k.
Proof.
  induction 1 as [|x [c' sample] l l' [Hk (p & Hp & Hs)] _ IH]; intros Hin.
  - by apply elem_of_nil in Hin.
  - apply elem_of_cons in Hin as [<-|Hin].
    + simpl in *. subst. exists (slice_to p k), p. split_and!; [left|done..].
    + destruct (IH Hin) as (sample' & p' & ? & ? & ?).
      exists sample', p'. split_and!; [by right|done..].
Qed.

(** C1: for every dictionary of categories and every value of
    [config["choose"]] that [int] reads as a non-negative integer [k],
    [generate_shuffled] returns; its result has the categories of its
    argument, and the sample of a category with pictures [pictures] has
    length [min k (length pictures)] and holds only elements of
    [pictures]; when [k] is at least the size of the category the
    sample is the whole list, in shuffled order. *)
Theorem generate_shuffled_sample (config : dict string)
    (categories : dict (list Path)) (choose_str : string) (k : Z) (s : state) :
  dict_wf categories ->
  dict_get "choose" config = Some choose_str ->
  PyStr.py_int choose_str = Some k ->
  0 <= k ->
  exists results s',
    generate_shuffled config categories s = Ok results s'
    /\ dict_keys results = dict_keys categories
    /\ forall C pictures,
         dict_get C categories = Some pictures ->
         exists sample,
           dict_get C results = Some sample
           /\ length sample = Nat.min (Z.to_nat k) (length pictures)
           /\ sample ⊆ pictures
           /\ (Z.of_nat (length pictures) <= k -> sample ≡ₚ pictures).
Proof.
  intros Hwf Hchoose Hint Hk. unfold generate_shuffled.
  rewrite (bind_Ok _ _ _ _ _ (getitem_Some _ _ _ s Hchoose)).
  rewrite (bind_Ok _ _ _ _ _ (int_Some _ _ s Hint)).
  destruct (generate_loop k categories [] s Hwf) as (res & s' & Hf & HF & _).
  { intros c _. apply not_elem_of_nil. }
  simpl in Hf. exists res, s'. split; [exact Hf|].
  pose proof (Forall2_sample_keys _ _ _ HF) as Hkeys. split; [done|].
  intros C pictures HC.
  destruct (Forall2_sample_elem _ _ _ _ _ HF (dict_get_elem _ _ _ HC))
    as (sample & p & Hin & Hp & ->).
  exists (slice_to p k). split_and!.
  - apply dict_elem_get; [|done]. unfold dict_wf. by rewrite Hkeys.
  - unfold slice_to. destruct (Z.leb_spec 0 k); [|lia].
    by rewrite length_take, Hp.
  - unfold slice_to. destruct (Z.leb_spec 0 k); [|lia].
    rewrite <- Hp. apply subseteq_take.
  - intros Hle. unfold slice_to. destruct (Z.leb_spec 0 k); [|lia].
    rewrite take_ge; [done|]. rewrite Hp. lia.
Qed.

(** ** Computations that keep the working directory *)

Create HintDb keeps discriminated.

Lemma keeps_root_ret {A} (a : A) : keeps_root (ret a).
Proof. by intros s. Qed.

Lemma keeps_root_raise {A} e : keeps_root (@raise A e).
Proof. by intros s. Qed.

Lemma keeps_root_unmodelled {A} : keeps_root (@unmodelled A).
Proof. by intros s. Qed.

Lemma keeps_root_bind {A B} (m : M A) (k : A -> M B) :
  keeps_root m -> (forall a, keeps_root (k a)) -> keeps_root (bind m k).
Proof.
  intros Hm Hk s. unfold bind. specialize (Hm s).
  destruct (m s) as [a s1|e s1|]; [|done..].
  specialize (Hk a s1). destruct (k a s1); congruence.
Qed.

Lemma keeps_root_foldM {A B} (body : B -> A -> M B) l :
  (forall acc x, keeps_root (body acc x)) ->
  forall acc, keeps_root (foldM body acc l).
Proof.
  intros Hb. induction l as [|x l IH]; intros acc; simpl.
  - apply keeps_root_ret.
  - apply keeps_root_bind; auto.
Qed.

Lemma keeps_root_mapM {A B} (f : A -> M B) l :
  (forall x, keeps_root (f x)) -> keeps_root (mapM f l).
Proof.
  intros Hf. induction l as [|x l IH]; simpl.
  - apply keeps_root_ret.
  - apply keeps_root_bind; [auto|]. intros y.
    apply keeps_root_bind; [auto|]. intros ys. apply keeps_root_ret.
Qed.

Lemma keeps_root_for_each {A} (body : A -> M unit) l :
  (forall x, keeps_root (body x)) -> keeps_root (for_each body l).
Proof.
  intros Hb. induction l as [|x l IH]; simpl.
  - apply keeps_root_ret.
  - apply keeps_root_bind; auto.
Qed.

Lemma keeps_root_lift {A} (o : outcome A) : keeps_root (lift o).
Proof. by destruct o; intros s. Qed.

Lemma keeps_root_getitem {V} k (d : dict V) : keeps_root (getitem k d).
Proof. unfold getitem. by destruct (dict_get k d); intros s. Qed.

Lemma keeps_root_int str : keeps_root (int str).
Proof. unfold int. by destruct (PyStr.py_int str); intros s. Qed.

Lemma keeps_root_print line : keeps_root (print line).
Proof. by intros s. Qed.

Lemma keeps_root_try {A} (m : M A) h :
  keeps_root m -> (forall k, keeps_root (h k)) ->
  keeps_root (try_except_KeyError m h).
Proof.
  intros Hm Hh s. unfold try_except_KeyError. specialize (Hm s).
  destruct (m s) as [a s1|e s1|]; [done| |done].
  destruct e; try done.
  specialize (Hh key s1). destruct (h key s1); congruence.
Qed.

Lemma keeps_root_if {A} (b : bool) (m1 m2 : M A) :
  keeps_root m1 -> keeps_root m2 -> keeps_root (if b then m1 else m2).
Proof. by destruct b. Qed.

#[local] Hint Resolve keeps_root_ret keeps_root_raise keeps_root_unmodelled
  keeps_root_lift keeps_root_getitem keeps_root_int keeps_root_print : keeps.
#[local] Hint Extern 2 (keeps_root (bind _ _)) =>
  apply keeps_root_bind; [|intros ?] : keeps.
#[local] Hint Extern 2 (keeps_root (foldM _ _ _)) =>
  apply keeps_root_foldM; intros ? ? : keeps.
#[local] Hint Extern 2 (keeps_root (mapM _ _)) =>
  apply keeps_root_mapM; intros ? : keeps.
#[local] Hint Extern 2 (keeps_root (for_each _ _)) =>
  apply keeps_root_for_each; intros ? : keeps.
#[local] Hint Extern 2 (keeps_root (try_except_KeyError _ _)) =>
  apply keeps_root_try; [|intros ?] : keeps.
#[local] Hint Extern 2 (keeps_root (if _ then _ else _)) =>
  apply keeps_root_if : keeps.
#[local] Hint Extern 3 (keeps_root (let '(_, _) := ?p in _)) =>
  destruct p : keeps.

Ltac keeps := eauto 30 with keeps.

Lemma keeps_root_listdir_cwd : keeps_root listdir_cwd.
Proof. by intros s. Qed.

Lemma keeps_root_isfile name : keeps_root (isfile name).
Proof. by intros s. Qed.

Lemma keeps_root_listdir name : keeps_root (listdir name).
Proof. intros s. unfold listdir. by destruct (dict_get name (root s)) as [[]|]. Qed.

Lemma keeps_root_mkdir_templates : keeps_root mkdir_templates.
Proof. intros s. unfold mkdir_templates. by destruct (templates_dir s). Qed.

Lemma keeps_root_template_exists name : keeps_root (template_exists name).
Proof. intros s. unfold template_exists. by destruct (plain_name name). Qed.

Lemma keeps_root_write_template name content :
  keeps_root (write_template name content).
Proof.
  intros s. unfold write_template.
  by destruct (plain_name name), (templates_dir s).
Qed.

Lemma keeps_root_listdir_templates : keeps_root listdir_templates.
Proof. intros s. unfold listdir_templates. by destruct (templates_dir s). Qed.

Lemma keeps_root_read_template name : keeps_root (read_template name).
Proof.
  intros s. unfold read_template.
  destruct (templates_dir s) as [files|]; [|done].
  by destruct (dict_get name files).
Qed.

Lemma keeps_root_randbelow n : keeps_root (randbelow n).
Proof. intros s. unfold randbelow. by destruct (rng s). Qed.

#[local] Hint Resolve keeps_root_listdir_cwd keeps_root_isfile
  keeps_root_listdir keeps_root_mkdir_templates keeps_root_template_exists
  keeps_root_write_template keeps_root_listdir_templates
  keeps_root_read_template keeps_root_randbelow : keeps.

Lemma keeps_root_categorical_wallpapers exclude :
  keeps_root (categorical_wallpapers exclude).
Proof. unfold categorical_wallpapers. keeps. Qed.

Lemma keeps_root_json_items v : keeps_root (json_items v).
Proof. destruct v; simpl; keeps. Qed.

Lemma keeps_root_template_text content : keeps_root (template_text content).
Proof.
  destruct content as [| | | |lines|]; simpl; keeps.
  destruct (json_strings lines); keeps.
Qed.

#[local] Hint Resolve keeps_root_categorical_wallpapers keeps_root_json_items
  keeps_root_template_text : keeps.

Lemma keeps_root_read_manifest : keeps_root read_manifest.
Proof. by intros s. Qed.

Lemma keeps_root_create_template item : keeps_root (create_template item).
Proof. destruct item. unfold create_template. keeps. Qed.

Lemma keeps_root_create_default_templates :
  keeps_root create_default_templates.
Proof.
  unfold create_default_templates.
  apply keeps_root_bind; [keeps|]. intros _.
  apply keeps_root_bind; [apply keeps_root_read_manifest|].
  intros [| |v]; [keeps..|].
  apply keeps_root_bind; [keeps|]. intros members.
  apply keeps_root_for_each, keeps_root_create_template.
Qed.

#[local] Hint Resolve keeps_root_create_default_templates : keeps.

Lemma keeps_root_get_templates : keeps_root get_templates.
Proof. unfold get_templates. keeps. Qed.

Lemma keeps_root_shuffle_from {A} i (x : list A) : keeps_root (shuffle_from i x).
Proof. revert x. induction i; intros x; simpl; keeps. Qed.

Lemma keeps_root_shuffle {A} (x : list A) : keeps_root (shuffle x).
Proof. apply keeps_root_shuffle_from. Qed.

#[local] Hint Resolve keeps_root_get_templates keeps_root_shuffle : keeps.

Lemma keeps_root_generate_shuffled config categories :
  keeps_root (generate_shuffled config categories).
Proof. unfold generate_shuffled. keeps. Qed.

#[local] Hint Resolve keeps_root_generate_shuffled : keeps.

Lemma keeps_root_handle_body name fmt config :
  keeps_root (handle_body name fmt config).
Proof.
  unfold handle_body, body_category, body_picture. keeps.
Qed.

Lemma keeps_root_handle_category name fmt config :
  keeps_root (handle_category name fmt config).
Proof.
  unfold handle_category, category_readme, category_picture. keeps.
Qed.

Lemma keeps_root_prime_templates config templates :
  keeps_root (prime_templates config handlers templates).
Proof.
  unfold prime_templates. apply keeps_root_foldM. intros acc [name fmt].
  unfold prime_template, handlers. simpl.
  destruct (String.eqb name "body.category.md").
  { apply keeps_root_bind; [apply keeps_root_handle_body|keeps]. }
  destruct (String.eqb name "category.md").
  { apply keeps_root_bind; [apply keeps_root_handle_category|keeps]. }
  keeps.
Qed.

Lemma keeps_root_compose primed : keeps_root (compose primed).
Proof. unfold compose. keeps. Qed.

(** ** The scan of the working directory *)

Lemma scan_loop (exclude : list string) (names : list string)
    (acc : dict (list Path)) s :
  (forall n, n ∈ names -> n ∈ dict_keys (root s)) ->
  foldM (fun (acc : dict (list Path)) category =>
           if PyStr.startswith category "." then ret acc
           else
             f <- isfile category ;;
             if f then ret acc
             else if bool_decide (category ∈ exclude) then ret acc
             else
               pictures <- listdir category ;;
               ret (dict_set category
                      (filter (fun picture => picture <> "README.md") pictures)
                      acc))
        acc names s
  = Ok (fold_left (fun acc name =>
                     if is_category (root s) exclude name
                     then dict_set name (pictures_of (root s) name) acc
                     else acc) names acc) s.
Proof.
  revert acc. induction names as [|n names IH]; intros acc Hin; [done|].
  rewrite foldM_cons. unfold bind at 1. cbn [fold_left].
  assert (Hn : n ∈ dict_keys (root s)) by (apply Hin; left).
  assert (Hrest : forall m, m ∈ names -> m ∈ dict_keys (root s))
    by (intros m Hm; apply Hin; by right).
  unfold is_category, pictures_of.
  destruct (PyStr.startswith n "."); simpl; [by apply IH|].
  unfold bind at 1, isfile, listdir.
  destruct (dict_get n (root s)) as [[content|entries]|] eqn:Hget; simpl.
  - by apply IH.
  - destruct (bool_decide (n ∈ exclude)); simpl; [by apply IH|].
    unfold bind at 1. rewrite Hget. simpl. by apply IH.
  - apply dict_get_None in Hget. done.
Qed.

(** [categorical_wallpapers] always returns, changes nothing, and
    depends on the working directory only. *)
Lemma categorical_wallpapers_scan exclude s :
  categorical_wallpapers exclude s = Ok (scan exclude (root s)) s.
Proof.
  unfold categorical_wallpapers, scan, bind, listdir_cwd.
  by apply scan_loop.
Qed.

Lemma scan_wf exclude r : dict_wf (scan exclude r).
Proof.
  unfold scan. generalize (dict_keys r).
  assert (H : dict_wf ([] : dict (list Path))) by apply dict_wf_nil.
  revert H. generalize ([] : dict (list Path)).
  intros acc Hacc names. revert acc Hacc.
  induction names as [|n names IH]; intros acc Hacc; simpl; [done|].
  apply IH. destruct (is_category _ _ _); [by apply dict_set_wf|done].
Qed.

(** ** Priming *)

Lemma append_nil_r (s : string) : s ++ EmptyString = s.
Proof.
  induction s as [|a s IH]; [reflexivity|].
  change (String a (s ++ EmptyString) = String a s). by rewrite IH.
Qed.

(** What the loop of [prime_templates] does with a template that has
    no handler. *)
Lemma prime_template_no_handler config (handlers : dict handler) result name raw s :
  dict_get name handlers = None ->
  prime_template config handlers result (name, raw) s
  = match Format.format raw config with
    | Returns text => Ok (dict_set name (VStr text) result) s
    | Raises (KeyError key) =>
        Ok (dict_set name (VStr raw) result)
           (set_stdout (stdout s ++ [warn_missing_variable name key]) s)
    | Raises e => Raise e s
    | Outside => Unmodelled
    end.
Proof.
  intros Hh. unfold prime_template. rewrite Hh.
  unfold try_except_KeyError, bind, lift.
  destruct (Format.format raw config) as [text|e|]; [done| |done].
  by destruct e.
Qed.

Lemma set_stdout_set_stdout o1 o2 s :
  set_stdout o2 (set_stdout o1 s) = set_stdout o2 s.
Proof. done. Qed.

Lemma set_stdout_id s : set_stdout (stdout s) s = s.
Proof. by destruct s. Qed.

Lemma prime_loop config (handlers : dict handler) (templates : dict string)
    (result : dict pyval) s :
  dict_wf templates ->
  (forall name, name ∈ dict_keys templates -> name ∉ dict_keys result) ->
  (forall name raw, (name, raw) ∈ templates ->
     dict_get name handlers = None /\ substitutable raw config = true) ->
  foldM (prime_template config handlers) result templates s
  = Ok (result ++ map (fun item => (item.1, VStr (primed_text item.2 config)))
                      templates)%list
       (set_stdout (stdout s ++ flat_map (missing_warning config) templates) s).
Proof.
  revert result s.
  induction templates as [|[name raw] templates IH]; intros result s Hwf Hfresh Hall.
  - simpl. by rewrite !app_nil_r, set_stdout_id.
  - apply NoDup_cons in Hwf as [Hname Hwf].
    destruct (Hall name raw) as [Hh Hsub]; [left|].
    rewrite foldM_cons. unfold bind at 1.
    rewrite (prime_template_no_handler _ _ _ _ _ _ Hh).
    assert (Hres : dict_get name result = None).
    { apply dict_get_None, Hfresh. left. }
    assert (Hnext : forall v name',
              name' ∈ dict_keys templates ->
              name' ∉ dict_keys (result ++ [(name, v)])%list).
    { intros v name' Hin. unfold dict_keys. rewrite fmap_app, elem_of_app.
      intros [Hr|Hr].
      - eapply Hfresh; [right; exact Hin|exact Hr].
      - apply list_elem_of_singleton in Hr. simpl in Hr. by subst. }
    unfold substitutable in Hsub. unfold primed_text, missing_warning.
    cbn [map flat_map fst snd].
    destruct (Format.format raw config) as [text|e|] eqn:Hf; [| |done].
    + rewrite (dict_set_fresh _ _ _ Hres).
      rewrite IH; [|done|by apply Hnext|by intros; apply Hall; right].
      by rewrite <- app_assoc.
    + destruct e; try done.
      rewrite (dict_set_fresh _ _ _ Hres).
      rewrite IH; [|done|by apply Hnext|by intros; apply Hall; right].
      unfold set_stdout. cbn [stdout root templates_dir manifest rng].
      by rewrite <- !app_assoc.
Qed.

(** A batch of templates without handlers, each substitutable: priming
    returns the substituted strings (the raw content where a variable
    is missing) and prints the warnings in order. *)
Lemma prime_templates_batch (config : dict string)
    (handlers : dict handler) (templates : dict string) (s : state) :
  dict_wf templates ->
  (forall name raw, (name, raw) ∈ templates ->
     dict_get name handlers = None /\ substitutable raw config = true) ->
  prime_templates config handlers templates s
  = Ok (map (fun item => (item.1, VStr (primed_text item.2 config))) templates)
       (set_stdout (stdout s ++ flat_map (missing_warning config) templates) s).
Proof.
  intros Hwf Hall. unfold prime_templates.
  rewrite (prime_loop config handlers templates [] s Hwf); [done| |done].
  intros name _. apply not_elem_of_nil.
Qed.

Lemma foldM_app {A B} (body : B -> A -> M B) acc l1 l2 s :
  foldM body acc (l1 ++ l2)%list s
  = (acc1 <- foldM body acc l1 ;; foldM body acc1 l2) s.
Proof.
  revert acc s. induction l1 as [|x l1 IH]; intros acc s.
  - simpl. unfold bind, ret. done.
  - cbn [app foldM]. unfold bind at 1 3.
    destruct (body acc x s) as [acc' s'|e s'|] eqn:Hb.
    + rewrite IH. unfold bind at 1 2. by rewrite Hb.
    + unfold bind. by rewrite Hb.
    + unfold bind. by rewrite Hb.
Qed.

(** C2, as amended: take a template without a handler whose
    substitution returns or fails on a missing variable, at any place
    of a batch, with any configuration.  Once the templates before it
    are primed, priming this template returns: it stores the
    substituted string, or, after exactly one warning, the raw
    content; and priming goes on with the templates after it. *)
Theorem prime_templates_generic (config : dict string)
    (handlers : dict handler) (before after : dict string)
    (name raw : string) (s s1 : state) (result : dict pyval) :
  dict_get name handlers = None ->
  substitutable raw config = true ->
  prime_templates config handlers before s = Ok result s1 ->
  exists stored s1',
    prime_templates config handlers (before ++ [(name, raw)])%list s
    = Ok (dict_set name (VStr stored) result) s1'
    /\ prime_templates config handlers (before ++ (name, raw) :: after)%list s
       = foldM (prime_template config handlers)
               (dict_set name (VStr stored) result) after s1'
    /\ ((Format.format raw config = Returns stored /\ s1' = s1)
        \/ (exists key,
              Format.format raw config = Raises (KeyError key)
              /\ stored = raw
              /\ s1' = set_stdout
                         (stdout s1 ++ [warn_missing_variable name key]) s1)).
Proof.
  intros Hh Hsub Hbefore. unfold prime_templates in *.
  assert (Hstep : exists stored s1',
    prime_template config handlers result (name, raw) s1
    = Ok (dict_set name (VStr stored) result) s1'
    /\ ((Format.format raw config = Returns stored /\ s1' = s1)
        \/ (exists key,
              Format.format raw config = Raises (KeyError key)
              /\ stored = raw
              /\ s1' = set_stdout
                         (stdout s1 ++ [warn_missing_variable name key]) s1))).
  { rewrite (prime_template_no_handler _ _ _ _ _ _ Hh).
    unfold substitutable in Hsub.
    destruct (Format.format raw config) as [text|e|]; [| |done].
    - exists text, s1. split; [done|]. by left.
    - destruct e; try done. eexists raw, _. split; [done|]. right. eauto. }
  destruct Hstep as (stored & s1' & Hstep & Hcases).
  exists stored, s1'. split_and!; [| |done].
  - rewrite foldM_app. rewrite (bind_Ok _ _ _ _ _ Hbefore).
    rewrite foldM_cons. by rewrite (bind_Ok _ _ _ _ _ Hstep).
  - rewrite foldM_app. rewrite (bind_Ok _ _ _ _ _ Hbefore).
    rewrite foldM_cons. by rewrite (bind_Ok _ _ _ _ _ Hstep).
Qed.

(** C2, as stated, fails: a template whose text is a single opening
    brace makes [str.format] raise [ValueError], which line 87 does not
    catch; the templates before it were primed, the whole batch is
    lost. *)
Lemma prime_templates_single_brace :
  prime_templates example_config []
    [("heading.md", "# Title"); ("notes.md", "{"); ("sources.md", "s")]
    example_state
  = Raise ValueError example_state.
Proof. reflexivity. Qed.

Lemma format_missing (config : dict string) :
  dict_get "missing" config = None ->
  Format.format "{missing}" config = Raises (KeyError "missing").
Proof.
  intros H. cbv -[dict_get]. by rewrite H.
Qed.

(** C3: for a template without a handler whose text is [{missing}],
    and every configuration without the key [missing], priming stores
    the text [{missing}] itself and prints exactly one line, the
    warning that names the variable [missing]. *)
Theorem prime_templates_missing (config : dict string)
    (handlers : dict handler) (template : string) (s : state) :
  dict_get "missing" config = None ->
  dict_get template handlers = None ->
  prime_templates config handlers [(template, "{missing}")] s
  = Ok [(template, VStr "{missing}")]
       (set_stdout
          (stdout s
           ++ ["Warning: Template " ++ template
               ++ " needs variable 'missing' that's not in config. Using template as-is."])
          s).
Proof.
  intros Hmissing Hh. unfold prime_templates.
  rewrite foldM_cons. unfold bind.
  rewrite (prime_template_no_handler _ _ _ _ _ _ Hh).
  by rewrite (format_missing _ Hmissing).
Qed.

(** ** The two handlers and the name of the category *)

Lemma format_category (kwargs : dict string) v :
  dict_get "category" kwargs = Some v ->
  Format.format "{category}" kwargs = Returns v.
Proof.
  intros H. cbv -[dict_get]. rewrite H. f_equal. apply append_nil_r.
Qed.

Lemma set_random_category merged picture :
  dict_get "category" (set_random merged picture) = dict_get "category" merged.
Proof. unfold set_random. by rewrite !dict_get_set_ne. Qed.

Lemma fold_set_random_category merged pictures :
  dict_get "category" (fold_left set_random pictures merged)
  = dict_get "category" merged.
Proof.
  revert merged. induction pictures as [|p pictures IH]; intros merged; [done|].
  simpl. by rewrite IH, set_random_category.
Qed.

Lemma body_merged_category category (config : dict string) :
  dict_wf config ->
  dict_get "category" (body_merged category config)
  = Some (default category (dict_get "category" config)).
Proof.
  intros Hwf. unfold body_merged. rewrite dict_get_merge by done.
  by destruct (dict_get "category" config).
Qed.

Lemma picture_merged_category (config : dict string) category picture :
  dict_get "category" (picture_merged config category picture) = Some category.
Proof. unfold picture_merged, dict_merge. simpl. apply dict_get_set_eq. Qed.

Lemma header_merged_category (config : dict string) category :
  dict_get "category" (header_merged config category) = Some category.
Proof. unfold header_merged, dict_merge. simpl. apply dict_get_set_eq. Qed.

Lemma String_cons_neq a (s : string) : String a s <> s.
Proof. induction s as [|b s IH]; [done|]. intros [= -> H]. by apply IH. Qed.

(** C9: in a configuration that is a dictionary, [handle_body]
    resolves [{category}] for every picture to the configuration's
    value of [category] when it has one, and to the directory name
    otherwise; [handle_category] resolves it to the directory name in
    the header and for every picture; the two handlers agree on every
    category exactly when the configuration has no key [category]. *)
Theorem category_precedence (config : dict string) :
  dict_wf config ->
  (forall category earlier picture,
     Format.format "{category}"
       (set_random (fold_left set_random earlier (body_merged category config))
                   picture)
     = Returns (default category (dict_get "category" config)))
  /\ (forall category picture,
        Format.format "{category}" (picture_merged config category picture)
        = Returns category)
  /\ (forall category,
        Format.format "{category}" (header_merged config category)
        = Returns category)
  /\ ((forall category picture,
         Format.format "{category}"
           (set_random (body_merged category config) picture)
         = Format.format "{category}" (picture_merged config category picture))
      <-> dict_get "category" config = None).
Proof.
  intros Hwf.
  assert (Hbody : forall category earlier picture,
     Format.format "{category}"
       (set_random (fold_left set_random earlier (body_merged category config))
                   picture)
     = Returns (default category (dict_get "category" config))).
  { intros category earlier picture. apply format_category.
    by rewrite set_random_category, fold_set_random_category,
      body_merged_category. }
  assert (Hpic : forall category picture,
     Format.format "{category}" (picture_merged config category picture)
     = Returns category).
  { intros. apply format_category, picture_merged_category. }
  pose proof (fun category picture => Hbody category [] picture) as Hbody0.
  cbn [fold_left] in Hbody0.
  split_and!; [done|done| |].
  - intros. apply format_category, header_merged_category.
  - split.
    + intros Hagree.
      destruct (dict_get "category" config) as [v|] eqn:Hv; [|done].
      specialize (Hagree (String "x" v) EmptyString).
      rewrite Hbody0, Hpic in Hagree. simpl in Hagree.
      injection Hagree as Hagree. symmetry in Hagree.
      by apply String_cons_neq in Hagree.
    + intros Hnone category picture.
      by rewrite Hbody0, Hpic, Hnone.
Qed.

(** ** The body handler without sampled pictures *)

Lemma Forall2_sample_zero categories res :
  Forall2 (sample_of 0) categories res ->
  res = map (fun item => (item.1, [])) categories.
Proof.
  induction 1 as [|x [c sample] l l' [Hk (p & _ & Hs)] _ IH]; [done|].
  simpl in *. subst. by destruct p.
Qed.

Lemma body_loop_bare fmt (config : dict string) spacing browse names acc s :
  dict_get "browse" config = Some browse ->
  foldM (body_category fmt config spacing) acc
        (map (fun c => (c, [])) names) s
  = Ok (acc ++ flat_map (bare_category spacing browse) names)%list s.
Proof.
  intros Hb. revert acc.
  induction names as [|c names IH]; intros acc.
  - simpl. by rewrite app_nil_r.
  - cbn [map flat_map]. rewrite foldM_cons. unfold bind at 1.
    unfold body_category. cbn [foldM]. unfold bind at 1, ret at 1.
    cbn [snd]. unfold bind at 1. rewrite (getitem_Some _ _ _ _ Hb).
    change (bare_category spacing browse c)
      with (heading c spacing
            :: (if PyStr.casefold_eq browse "True"
                then [browse_link c spacing] else [])).
    destruct (PyStr.casefold_eq browse "True"); unfold ret at 1;
      rewrite IH, <- !app_assoc; done.
Qed.

(** C8: with [config["choose"] = "0"] the sample of every category is
    the empty list, and [handle_body] returns, for the categories
    [categories] of its scan in order, the heading of each category
    (followed by its browse link when [browse] asks for one) joined by
    the spacing: the heading is there for every scanned category
    although no picture was sampled. *)
Theorem handle_body_choose_zero (name fmt : string) (config : dict string)
    (exclude spacing_str browse : string) (n : Z) (s : state) :
  dict_get "choose" config = Some "0" ->
  dict_get "exclude" config = Some exclude ->
  dict_get "spacing" config = Some spacing_str ->
  PyStr.py_int spacing_str = Some n ->
  dict_get "browse" config = Some browse ->
  let spacing := PyStr.str_repeat nl n in
  exists categories pieces s1 s',
    categorical_wallpapers (inl exclude) s = Ok categories s
    /\ generate_shuffled config categories s
       = Ok (map (fun item => (item.1, [])) categories) s1
    /\ handle_body name fmt config s
       = Ok (VStr (PyStr.str_join spacing pieces)) s'
    /\ pieces = flat_map (bare_category spacing browse) (dict_keys categories)
    /\ (forall category, category ∈ dict_keys categories ->
          ("## " ++ category ++ spacing) ∈ pieces)
    /\ draws s s'.
Proof.
  intros Hchoose Hexcl Hsp Hn Hbrowse spacing.
  set (categories := scan (inl exclude) (root s)).
  destruct (generate_loop 0 categories [] s (scan_wf _ _))
    as (res & s1 & Hloop & HF & Hd).
  { intros c _. apply not_elem_of_nil. }
  apply Forall2_sample_zero in HF. simpl in Hloop. subst res.
  assert (Hgen : generate_shuffled config categories s
                 = Ok (map (fun item => (item.1, [])) categories) s1).
  { unfold generate_shuffled.
    rewrite (bind_Ok _ _ _ _ _ (getitem_Some _ _ _ s Hchoose)).
    by rewrite (bind_Ok _ _ _ _ _ (int_Some "0" 0 s eq_refl)). }
  exists categories, (flat_map (bare_category spacing browse) (dict_keys categories)),
    s1, s1.
  split_and!; [apply categorical_wallpapers_scan|exact Hgen| |done| |done].
  - unfold handle_body.
    rewrite (bind_Ok _ _ _ _ _ (getitem_Some _ _ _ s Hexcl)).
    rewrite (bind_Ok _ _ _ _ _ (categorical_wallpapers_scan _ s)).
    fold categories. rewrite (bind_Ok _ _ _ _ _ Hgen).
    rewrite (bind_Ok _ _ _ _ _ (getitem_Some _ _ _ s1 Hsp)).
    rewrite (bind_Ok _ _ _ _ _ (int_Some _ _ s1 Hn)).
    fold spacing.
    replace (map (fun item : string * list Path => (item.1, @nil Path)) categories)
      with (map (fun c : string => (c, @nil Path)) (dict_keys categories)).
    2:{ unfold dict_keys. rewrite <- list_fmap_compose. done. }
    by rewrite (bind_Ok _ _ _ _ _ (body_loop_bare fmt config spacing browse _ [] s1 Hbrowse)).
  - intros category Hin. apply list_elem_of_In, in_flat_map.
    exists category. split; [by apply list_elem_of_In|]. left. done.
Qed.

(** ** The category handler *)

Lemma length_append (s t : string) :
  String.length (s ++ t) = (String.length s + String.length t)%nat.
Proof.
  induction s as [|a s IH]; [done|].
  change (S (String.length (s ++ t)) = S (String.length s + String.length t)).
  by rewrite IH.
Qed.

(** The name of a category can be read off the name of its README. *)
Lemma append_cancel_r (s1 s2 t : string) : s1 ++ t = s2 ++ t -> s1 = s2.
Proof.
  revert s2. induction s1 as [|a s1 IH]; intros [|b s2] H; [done| | |].
  - change (t = String b (s2 ++ t)) in H.
    apply (f_equal String.length) in H.
    cbn [String.length] in H. rewrite length_append in H. lia.
  - change (String a (s1 ++ t) = t) in H.
    apply (f_equal String.length) in H.
    cbn [String.length] in H. rewrite length_append in H. lia.
  - change (String a (s1 ++ t) = String b (s2 ++ t)) in H.
    injection H as -> H. f_equal. by apply IH.
Qed.

Lemma NoDup_map_inj {A B} (f : A -> B) (l : list A) :
  (forall x y, f x = f y -> x = y) -> NoDup l -> NoDup (map f l).
Proof.
  intros Hf. induction 1 as [|x l Hx Hl IH]; simpl; constructor; [|done].
  intros Hin. apply list_elem_of_In, in_map_iff in Hin as (y & Hy & Hin).
  apply Hf in Hy as ->. by apply list_elem_of_In in Hin.
Qed.

Lemma lift_Ok_inv {A} (o : outcome A) s a s' :
  lift o s = Ok a s' -> o = Returns a /\ s' = s.
Proof. destruct o; simpl; unfold ret, raise, unmodelled; naive_solver. Qed.

Lemma getitem_Ok_inv {V} k (d : dict V) s v s' :
  getitem k d s = Ok v s' -> dict_get k d = Some v /\ s' = s.
Proof.
  unfold getitem. destruct (dict_get k d); unfold ret, raise; naive_solver.
Qed.

Lemma int_Ok_inv str s z s' :
  int str s = Ok z s' -> PyStr.py_int str = Some z /\ s' = s.
Proof.
  unfold int. destruct (PyStr.py_int str); unfold ret, raise; naive_solver.
Qed.

Lemma category_picture_loop fmt (config : dict string) spacing category readme
    pictures (acc res : dict string) s s' :
  readme ∈ dict_keys acc ->
  foldM (category_picture fmt config spacing category readme) acc pictures s
  = Ok res s' ->
  s' = s /\ dict_keys res = dict_keys acc.
Proof.
  revert acc. induction pictures as [|p pictures IH]; intros acc Hin H.
  - simpl in H. unfold ret in H. by injection H as <- <-.
  - rewrite foldM_cons in H.
    apply bind_Ok_inv in H as (acc1 & s1 & Hstep & H).
    unfold category_picture in Hstep.
    apply bind_Ok_inv in Hstep as (so_far & s2 & [_ ->]%getitem_Ok_inv & Hstep).
    apply bind_Ok_inv in Hstep as (text & s3 & [_ ->]%lift_Ok_inv & Hstep).
    unfold ret in Hstep. injection Hstep as <- <-.
    apply IH in H as [-> ->].
    + split; [done|]. by apply dict_keys_set_present.
    + by rewrite dict_keys_set_present.
Qed.

Lemma category_readme_loop fmt header (config : dict string) spacing
    (categories : dict (list Path)) (acc res : dict string) s s' :
  dict_wf categories ->
  (forall c : string,
     c ∈ dict_keys categories -> (c ++ "/README.md")%string ∉ dict_keys acc) ->
  foldM (category_readme fmt header config spacing) acc categories s
  = Ok res s' ->
  s' = s
  /\ dict_keys res
     = (dict_keys acc
        ++ map (fun c : string => (c ++ "/README.md")%string)
              (dict_keys categories))%list.
Proof.
  revert acc.
  induction categories as [|[c pictures] categories IH]; intros acc Hwf Hfresh H.
  - simpl in H. unfold ret in H. injection H as <- <-.
    by rewrite app_nil_r.
  - apply NoDup_cons in Hwf as [Hc Hwf].
    rewrite foldM_cons in H.
    apply bind_Ok_inv in H as (acc1 & s1 & Hstep & H).
    unfold category_readme in Hstep.
    apply bind_Ok_inv in Hstep as (text & s2 & [_ ->]%lift_Ok_inv & Hstep).
    assert (Hnew : (c ++ "/README.md")%string ∉ dict_keys acc) by (apply Hfresh; left).
    apply category_picture_loop in Hstep as [-> Hkeys].
    2:{ rewrite dict_keys_set_fresh by done. apply elem_of_app. right. left. }
    rewrite dict_keys_set_fresh in Hkeys by done.
    apply IH in H as [-> ->]; [|done|].
    + split; [done|]. rewrite Hkeys, <- app_assoc. done.
    + intros c' Hc'. rewrite Hkeys, elem_of_app.
      intros [Hin|Hin%list_elem_of_singleton].
      * eapply Hfresh; [right; exact Hc'|exact Hin].
      * apply append_cancel_r in Hin. by subst.
Qed.

Lemma keeps_root_Ok {A} (m : M A) s a s' :
  keeps_root m -> m s = Ok a s' -> root s' = root s.
Proof. intros Hk H. specialize (Hk s). by rewrite H in Hk. Qed.

(** C4: whatever [config["exclude"]] says, the dictionary that
    [handle_category] returns has exactly one entry for each category
    of the unfiltered scan [categorical_wallpapers()], keyed
    [<category>/README.md], in the order of the scan; so every
    category of that scan has its document, excluded or not. *)
Theorem handle_category_keys (name fmt : string) (config : dict string)
    (s s' : state) (v : pyval) :
  handle_category name fmt config s = Ok v s' ->
  exists categories results,
    categorical_wallpapers (inr []) s = Ok categories s
    /\ v = VDict results
    /\ dict_wf results
    /\ dict_keys results
       = map (fun category : string => category ++ "/README.md")
             (dict_keys categories)
    /\ (forall category : string,
          category ∈ dict_keys categories ->
          dict_mem (category ++ "/README.md") results = true).
Proof.
  intros H. unfold handle_category in H.
  apply bind_Ok_inv in H as (spacing_str & s1 & [_ ->]%getitem_Ok_inv & H).
  apply bind_Ok_inv in H as (n & s1 & [_ ->]%int_Ok_inv & H).
  apply bind_Ok_inv in H as (templates & s1 & Ht & H).
  apply (keeps_root_Ok _ _ _ _ keeps_root_get_templates) in Ht.
  rewrite (bind_Ok _ _ _ _ _ (categorical_wallpapers_scan _ s1)) in H.
  apply bind_Ok_inv in H as (results & s2 & Hloop & H).
  unfold ret in H. injection H as <- <-.
  rewrite Ht in Hloop.
  apply category_readme_loop in Hloop as [-> Hkeys];
    [|apply scan_wf|intros c _; apply not_elem_of_nil].
  simpl in Hkeys.
  exists (scan (inr []) (root s)), results.
  split_and!; [apply categorical_wallpapers_scan|done| |done|].
  - unfold dict_wf. rewrite Hkeys.
    apply NoDup_map_inj; [|apply scan_wf].
    intros c1 c2. apply append_cancel_r.
  - intros category Hin. unfold dict_mem.
    destruct (dict_get (category ++ "/README.md") results) eqn:Hget; [done|].
    apply dict_get_None in Hget. destruct Hget. rewrite Hkeys.
    apply list_elem_of_In.
    apply (in_map (fun c : string => c ++ "/README.md")).
    by apply list_elem_of_In.
Qed.

(** ** The entry point *)

Lemma compose_present (primed : dict pyval) h bh bc so c s :
  dict_get "heading.md" primed = Some h ->
  dict_get "body.heading.md" primed = Some bh ->
  dict_get "body.category.md" primed = Some bc ->
  dict_get "sources.md" primed = Some so ->
  dict_get "category.md" primed = Some c ->
  compose primed s = Ok ([h; bh; bc; so], c) s.
Proof.
  intros H1 H2 H3 H4 H5. unfold compose, mapM, bind, getitem.
  change ("heading" ++ ".md") with "heading.md".
  change ("body.heading" ++ ".md") with "body.heading.md".
  change ("body.category" ++ ".md") with "body.category.md".
  change ("sources" ++ ".md") with "sources.md".
  by rewrite H1, H2, H3, H4, H5.
Qed.

Lemma compose_absent (primed : dict pyval) name s :
  name ∈ required_templates ->
  dict_get name primed = None ->
  exists missing,
    missing ∈ required_templates /\ dict_get missing primed = None
    /\ compose primed s = Raise (KeyError missing) s.
Proof.
  intros Hin Hnone. unfold compose, mapM, bind, getitem.
  change ("heading" ++ ".md") with "heading.md".
  change ("body.heading" ++ ".md") with "body.heading.md".
  change ("body.category" ++ ".md") with "body.category.md".
  change ("sources" ++ ".md") with "sources.md".
  unfold required_templates in *.
  destruct (dict_get "heading.md" primed) eqn:H1;
    [|exists "heading.md"; split_and!; [apply list_elem_of_In; simpl; tauto|done..]].
  destruct (dict_get "body.heading.md" primed) eqn:H2;
    [|exists "body.heading.md"; split_and!; [apply list_elem_of_In; simpl; tauto|done..]].
  destruct (dict_get "body.category.md" primed) eqn:H3;
    [|exists "body.category.md"; split_and!; [apply list_elem_of_In; simpl; tauto|done..]].
  destruct (dict_get "sources.md" primed) eqn:H4;
    [|exists "sources.md"; split_and!; [apply list_elem_of_In; simpl; tauto|done..]].
  destruct (dict_get "category.md" primed) eqn:H5;
    [|exists "category.md"; split_and!; [apply list_elem_of_In; simpl; tauto|done..]].
  repeat (apply elem_of_cons in Hin as [->|Hin]; [congruence|]).
  by apply elem_of_nil in Hin.
Qed.

(** C5: once priming has returned [primed], the entry point passes on
    the values primed for [heading.md], [body.heading.md],
    [body.category.md] and [sources.md], in this order, as the full
    document, and the value primed for [category.md] as the partial
    set; when one of these five names is absent from [primed] it
    raises [KeyError] for an absent name in the state priming left, so
    nothing is printed or written after priming. *)
Theorem full_document_sequence (config : dict string) (today : string)
    (templates : dict string) (s s1 : state) (primed : dict pyval) :
  prime_templates (dict_set "date" today config) handlers templates s
  = Ok primed s1 ->
  (forall h bh bc so c,
     dict_get "heading.md" primed = Some h ->
     dict_get "body.heading.md" primed = Some bh ->
     dict_get "body.category.md" primed = Some bc ->
     dict_get "sources.md" primed = Some so ->
     dict_get "category.md" primed = Some c ->
     compose primed s1 = Ok ([h; bh; bc; so], c) s1
     /\ main config today templates s
        = emit (dict_set "date" today config) [h; bh; bc; so] c s1)
  /\ (forall name,
        name ∈ required_templates ->
        dict_get name primed = None ->
        exists missing,
          missing ∈ required_templates /\ dict_get missing primed = None
          /\ main config today templates s = Raise (KeyError missing) s1).
Proof.
  intros Hprime. split.
  - intros h bh bc so c H1 H2 H3 H4 H5.
    pose proof (compose_present primed h bh bc so c s1 H1 H2 H3 H4 H5) as Hc.
    split; [done|]. unfold main.
    rewrite (bind_Ok _ _ _ _ _ Hprime). by rewrite (bind_Ok _ _ _ _ _ Hc).
  - intros name Hin Hnone.
    destruct (compose_absent primed name s1 Hin Hnone) as (missing & ? & ? & Hc).
    exists missing. split_and!; [done..|]. unfold main.
    rewrite (bind_Ok _ _ _ _ _ Hprime). by rewrite (bind_Raise _ _ _ _ _ Hc).
Qed.

Lemma emit_dry_missing (CONFIG : dict string) full partial s :
  dict_get "dry" CONFIG = None ->
  emit CONFIG full partial s = Raise (KeyError "dry") s.
Proof.
  intros H. unfold emit. by rewrite (bind_Raise _ _ _ _ _ (getitem_None _ _ s H)).
Qed.

Lemma aborts_bind {A B} (m : M A) (k : A -> M B) :
  keeps_root m -> (forall a, aborts_keeping_root (k a)) ->
  aborts_keeping_root (bind m k).
Proof.
  intros Hm Hk s. unfold bind. specialize (Hm s).
  destruct (m s) as [a s1|e s1|]; [|done..].
  specialize (Hk a s1). destruct (k a s1); [done|congruence|done].
Qed.

Lemma compose_Ok_inv primed s composed s' :
  compose primed s = Ok composed s' -> s' = s.
Proof.
  unfold compose, mapM, bind, getitem, ret, raise. intros H.
  repeat match type of H with
         | context [match dict_get ?k ?d with _ => _ end] =>
             destruct (dict_get k d)
         end; congruence.
Qed.

(** C10, as amended: with a configuration that has no key [dry] the
    script never returns and never writes the root document or a
    category document (the working directory stays as it was); when
    loading, priming and the five template lookups succeed, it ends with
    [KeyError] for [dry] in the state priming left. *)
Theorem dry_is_required (config : dict string) (today : string) (s : state) :
  dict_get "dry" config = None ->
  match script config today s with
  | Ok _ _ => False
  | Raise _ s' => root s' = root s
  | Unmodelled => True
  end
  /\ (forall templates s0 primed s1 composed s2,
        get_templates s = Ok templates s0 ->
        prime_templates (dict_set "date" today config) handlers templates s0
        = Ok primed s1 ->
        compose primed s1 = Ok composed s2 ->
        script config today s = Raise (KeyError "dry") s1).
Proof.
  intros Hdry.
  assert (Hdry' : dict_get "dry" (dict_set "date" today config) = None).
  { by rewrite dict_get_set_ne. }
  split.
  - apply (aborts_bind get_templates); [apply keeps_root_get_templates|].
    intros templates. unfold main.
    apply aborts_bind; [apply keeps_root_prime_templates|]. intros primed.
    apply aborts_bind; [apply keeps_root_compose|]. intros composed s1.
    by rewrite emit_dry_missing.
  - intros templates s0 primed s1 composed s2 Ht Hp Hc.
    pose proof (compose_Ok_inv _ _ _ _ Hc) as ->.
    unfold script, main.
    rewrite (bind_Ok _ _ _ _ _ Ht), (bind_Ok _ _ _ _ _ Hp), (bind_Ok _ _ _ _ _ Hc).
    by apply emit_dry_missing.
Qed.

(** ** The template store *)

Lemma dict_mem_set {V} k k' (v : V) (d : dict V) :
  dict_mem k d = true -> dict_mem k (dict_set k' v d) = true.
Proof.
  unfold dict_mem. rewrite dict_get_set.
  by destruct (String.eqb k k').
Qed.

Lemma dict_mem_set_eq {V} k (v : V) (d : dict V) :
  dict_mem k (dict_set k v d) = true.
Proof. unfold dict_mem. by rewrite dict_get_set_eq. Qed.

Lemma template_text_state content s text s' :
  template_text content s = Ok text s' -> s' = s.
Proof.
  unfold template_text, ret, raise.
  destruct content as [| | | |lines|]; try done; [congruence|].
  destruct (json_strings lines); congruence.
Qed.

(** One entry of the manifest: when the step returns, the file is
    there, the files that were there still are, and nothing but the
    template directory has changed. *)
Lemma create_template_Ok name content s s1 :
  create_template (name, content) s = Ok tt s1 ->
  template_present s1 name
  /\ (forall other, template_present s other -> template_present s1 other)
  /\ (is_Some (templates_dir s) -> is_Some (templates_dir s1))
  /\ root s1 = root s /\ manifest s1 = manifest s /\ stdout s1 = stdout s
  /\ rng s1 = rng s.
Proof.
  unfold create_template, bind, template_exists, template_present.
  destruct (plain_name name) eqn:Hplain; [|done].
  destruct (templates_dir s) as [files|] eqn:Hdir.
  - destruct (dict_mem name files) eqn:Hmem.
    + unfold ret. intros [= <-]. rewrite Hdir. split_and!; eauto.
    + destruct (template_text content s) as [text s2|e s2|] eqn:Htext; [|done..].
      apply template_text_state in Htext as ->.
      unfold write_template. rewrite Hplain, Hdir. intros [= <-].
      split; [|split; [|split_and!; [by intros _; eexists|done..]]].
      * split; [done|]. eexists. split; [done|]. apply dict_mem_set_eq.
      * intros other [Ho (files' & [= <-] & Hm)]. split; [done|].
        eexists. split; [done|]. by apply dict_mem_set.
  - simpl. destruct (template_text content s) as [text s2|e s2|] eqn:Htext; [|done..].
    apply template_text_state in Htext as ->.
    unfold write_template. by rewrite Hplain, Hdir.
Qed.

Lemma create_templates_Ok members s s1 :
  for_each create_template members s = Ok tt s1 ->
  (forall name, name ∈ dict_keys members -> template_present s1 name)
  /\ (forall other, template_present s other -> template_present s1 other)
  /\ (is_Some (templates_dir s) -> is_Some (templates_dir s1))
  /\ root s1 = root s /\ manifest s1 = manifest s /\ stdout s1 = stdout s
  /\ rng s1 = rng s.
Proof.
  revert s. induction members as [|[name content] members IH]; intros s H.
  - simpl in H. unfold ret in H. injection H as <-.
    split_and!; try done. intros name Hin. by apply elem_of_nil in Hin.
  - simpl in H. apply bind_Ok_inv in H as ([] & s2 & Hstep & H).
    apply create_template_Ok in Hstep as (Hname & Hmono & Hdir & ? & ? & ? & ?).
    apply IH in H as (Hall & Hmono' & Hdir' & ? & ? & ? & ?).
    split_and!; [|by eauto|by eauto|congruence..].
    intros n Hin. unfold dict_keys in Hin. rewrite fmap_cons in Hin.
    apply elem_of_cons in Hin as [->|Hin]; [by apply Hmono'|by apply Hall].
Qed.

(** When every file of the manifest is there, the loop writes
    nothing. *)
Lemma create_templates_present members s :
  (forall name, name ∈ dict_keys members -> template_present s name) ->
  for_each create_template members s = Ok tt s.
Proof.
  induction members as [|[name content] members IH]; intros Hall; [done|].
  simpl. unfold bind at 1.
  destruct (Hall name) as (Hplain & files & Hdir & Hmem); [left|].
  unfold create_template, bind, template_exists. rewrite Hplain, Hdir, Hmem.
  unfold ret at 1. apply IH. intros n Hin. apply Hall. by right.
Qed.

Lemma mkdir_templates_Some files s :
  templates_dir s = Some files -> mkdir_templates s = Ok tt s.
Proof. unfold mkdir_templates. by intros ->. Qed.

Lemma mkdir_templates_Ok s :
  mkdir_templates s
  = Ok tt (set_templates_dir (Some (default [] (templates_dir s))) s).
Proof.
  unfold mkdir_templates. destruct s as [r [files|] m o g]; reflexivity.
Qed.

(** Without a manifest the bootstrap makes sure the template directory
    exists, prints its warning and is done. *)
Lemma create_default_templates_absent s :
  manifest s = ManifestAbsent ->
  create_default_templates s
  = Ok tt (set_stdout (stdout s ++ [warn_manifest_absent])
             (set_templates_dir (Some (default [] (templates_dir s))) s)).
Proof.
  intros Hm. unfold create_default_templates.
  rewrite (bind_Ok _ _ _ _ _ (mkdir_templates_Ok s)).
  unfold bind, read_manifest. simpl. by rewrite Hm.
Qed.

Lemma create_default_templates_invalid s :
  manifest s = ManifestInvalid ->
  create_default_templates s
  = Ok tt (set_stdout (stdout s ++ [warn_manifest_invalid])
             (set_templates_dir (Some (default [] (templates_dir s))) s)).
Proof.
  intros Hm. unfold create_default_templates.
  rewrite (bind_Ok _ _ _ _ _ (mkdir_templates_Ok s)).
  unfold bind, read_manifest. simpl. by rewrite Hm.
Qed.

(** C6: after a run of [create_default_templates] that returned, a
    second run returns too and leaves every file as it is: the working
    directory, the template directory and the manifest are unchanged.
    With a manifest that is a JSON object the second run changes
    nothing at all, since the file of every entry is already there. *)
Theorem create_default_templates_idempotent (s s1 : state) :
  create_default_templates s = Ok tt s1 ->
  exists s2,
    create_default_templates s1 = Ok tt s2
    /\ root s2 = root s1
    /\ templates_dir s2 = templates_dir s1
    /\ manifest s2 = manifest s1
    /\ (forall members,
          manifest s = ManifestJson (JObject members) ->
          s2 = s1
          /\ forall name, name ∈ dict_keys members -> template_present s1 name).
Proof.
  intros H. destruct (manifest s) as [| |v] eqn:Hm.
  - (* absent: the warning again, no file touched *)
    rewrite (create_default_templates_absent s Hm) in H. injection H as <-.
    eexists. split; [by apply create_default_templates_absent|].
    by split_and!.
  - (* invalid: the warning again, no file touched *)
    rewrite (create_default_templates_invalid s Hm) in H. injection H as <-.
    eexists. split; [by apply create_default_templates_invalid|].
    by split_and!.
  - unfold create_default_templates at 1 in H.
    apply bind_Ok_inv in H as ([] & sm & Hmk & H).
    assert (Hsm : exists files, templates_dir sm = Some files
                                /\ manifest sm = manifest s).
    { rewrite mkdir_templates_Ok in Hmk. injection Hmk as <-. eauto. }
    destruct Hsm as (files & Hfiles & Hman).
    unfold bind at 1, read_manifest in H. rewrite Hman, Hm in H.
    apply bind_Ok_inv in H as (members & s3 & Hitems & H).
    destruct v; try done. unfold json_items, ret in Hitems.
    injection Hitems as <- <-.
    apply create_templates_Ok in H as (Hall & _ & Hdir & Hroot & Hman1 & _ & _).
    destruct Hdir as [files1 Hfiles1]; [by rewrite Hfiles|].
    exists s1.
    assert (Hrun : create_default_templates s1 = Ok tt s1).
    { unfold create_default_templates.
      rewrite (bind_Ok _ _ _ _ _ (mkdir_templates_Some files1 _ Hfiles1)).
      unfold bind at 1, read_manifest. rewrite Hman1, Hman, Hm.
      unfold bind, json_items, ret. by apply create_templates_present. }
    split_and!; try done.
    intros members' [= <-]. done.
Qed.

Lemma dict_get_app {V} k (a b : dict V) :
  dict_get k (a ++ b)%list
  = match dict_get k a with Some v => Some v | None => dict_get k b end.
Proof.
  induction a as [|[k' v'] a IH]; simpl; [done|].
  by destruct (String.eqb k k').
Qed.

Lemma read_template_Some files name content s :
  templates_dir s = Some files -> dict_get name files = Some content ->
  read_template name s = Ok content s.
Proof. unfold read_template. by intros -> ->. Qed.

(** Loading reads every listed file; a name is looked up like a file
    name in the directory. *)
Lemma load_loop files names (acc : dict string) s :
  templates_dir s = Some files ->
  (forall n, n ∈ names -> n ∈ dict_keys files) ->
  exists res,
    foldM (fun (templates : dict string) template =>
             content <- read_template template ;;
             ret (dict_set template content templates))
          acc names s = Ok res s
    /\ forall k, dict_get k res
                 = if bool_decide (k ∈ names) then dict_get k files
                   else dict_get k acc.
Proof.
  intros Hdir. revert acc.
  induction names as [|n names IH]; intros acc Hin.
  - exists acc. split; [done|]. intros k.
    rewrite bool_decide_eq_false_2; [done|apply not_elem_of_nil].
  - destruct (dict_get n files) as [content|] eqn:Hn.
    2:{ apply dict_get_None in Hn. destruct Hn. apply Hin. left. }
    destruct (IH (dict_set n content acc)) as (res & Hres & Hlook).
    { intros m Hm. apply Hin. by right. }
    exists res. split.
    + rewrite foldM_cons. unfold bind at 1.
      rewrite (bind_Ok _ _ _ _ _ (read_template_Some _ _ _ _ Hdir Hn)).
      unfold ret at 1. exact Hres.
    + intros k. rewrite Hlook, dict_get_set.
      destruct (String.eqb_spec k n) as [->|Hne].
      * rewrite (bool_decide_eq_true_2 (n ∈ n :: names)) by left.
        by destruct (bool_decide (n ∈ names)).
      * destruct (decide (k ∈ names)) as [Hk|Hk].
        -- rewrite !bool_decide_eq_true_2; [done|by right|done].
        -- rewrite !bool_decide_eq_false_2; [done| |done].
           rewrite not_elem_of_cons. done.
Qed.

(** For a directory without duplicate names the loop rebuilds the
    directory listing item by item. *)
Lemma load_loop_wf (pre rest : dict string) s :
  templates_dir s = Some (pre ++ rest)%list ->
  dict_wf (pre ++ rest)%list ->
  foldM (fun (templates : dict string) template =>
           content <- read_template template ;;
           ret (dict_set template content templates))
        pre (dict_keys rest) s = Ok (pre ++ rest)%list s.
Proof.
  revert pre. induction rest as [|[n c] rest IH]; intros pre Hdir Hwf.
  - by rewrite app_nil_r.
  - assert (Hpre : dict_get n pre = None).
    { apply dict_get_None. unfold dict_wf, dict_keys in Hwf.
      rewrite fmap_app, fmap_cons in Hwf.
      apply NoDup_app in Hwf as (_ & Hdisj & _).
      intros Hn. apply (Hdisj n Hn). left. }
    assert (Hn : dict_get n (pre ++ (n, c) :: rest)%list = Some c).
    { rewrite dict_get_app, Hpre. simpl. by rewrite String.eqb_refl. }
    unfold dict_keys. rewrite fmap_cons. cbn [fst].
    rewrite foldM_cons. unfold bind at 1.
    rewrite (bind_Ok _ _ _ _ _ (read_template_Some _ _ _ _ Hdir Hn)).
    unfold ret at 1. rewrite (dict_set_fresh _ _ _ Hpre).
    replace (pre ++ (n, c) :: rest)%list with ((pre ++ [(n, c)]) ++ rest)%list
      by (by rewrite <- app_assoc).
    apply IH; by rewrite <- app_assoc.
Qed.

(** C7: when the manifest is absent or cannot be decoded, the
    bootstrap prints its warning and writes no file (the template
    directory holds the files it held, the working directory and the
    manifest are untouched), and [get_templates] still returns: every
    name is mapped to the content of the file of that name in the
    template directory; for a directory listing without repeated names
    the result is that listing. *)
Theorem bootstrap_without_manifest (s : state) :
  manifest s = ManifestAbsent \/ manifest s = ManifestInvalid ->
  let files := default [] (templates_dir s) in
  exists warning templates,
    (warning = warn_manifest_absent \/ warning = warn_manifest_invalid)
    /\ let s1 := set_stdout (stdout s ++ [warning])
                   (set_templates_dir (Some files) s) in
       create_default_templates s = Ok tt s1
       /\ get_templates s = Ok templates s1
       /\ (forall name, dict_get name templates = dict_get name files)
       /\ (dict_wf files -> templates = files).
Proof.
  intros Hm files.
  assert (Hboot : exists warning,
            (warning = warn_manifest_absent \/ warning = warn_manifest_invalid)
            /\ create_default_templates s
               = Ok tt (set_stdout (stdout s ++ [warning])
                          (set_templates_dir (Some files) s))).
  { destruct Hm as [Hm|Hm].
    - exists warn_manifest_absent. split; [by left|].
      by apply create_default_templates_absent.
    - exists warn_manifest_invalid. split; [by right|].
      by apply create_default_templates_invalid. }
  destruct Hboot as (warning & Hw & Hboot).
  set (s1 := set_stdout (stdout s ++ [warning]) (set_templates_dir (Some files) s)).
  assert (Hdir : templates_dir s1 = Some files) by done.
  destruct (load_loop files (dict_keys files) [] s1 Hdir) as (templates & Hload & Hlook);
    [done|].
  exists warning, templates. split; [done|]. cbn zeta. fold s1.
  assert (Hget : get_templates s = Ok templates s1).
  { unfold get_templates. rewrite (bind_Ok _ _ _ _ _ Hboot). fold s1.
    unfold bind at 1, listdir_templates. by rewrite Hdir. }
  split_and!; [done|done| |].
  - intros name. rewrite Hlook.
    destruct (decide (name ∈ dict_keys files)) as [Hin|Hnin].
    + by rewrite bool_decide_eq_true_2.
    + rewrite bool_decide_eq_false_2 by done. simpl. symmetry.
      by apply dict_get_None.
  - intros Hwf.
    pose proof (load_loop_wf [] files s1 Hdir Hwf) as Hwfload.
    simpl in Hwfload. rewrite Hwfload in Hload. by injection Hload as <-.
Qed.

(** ** The theorems at work on the example *)

Ltac wf_by_computation :=
  unfold dict_wf, dict_keys; simpl;
  apply (bool_decide_unpack _); vm_compute; exact I.

Lemma generate_shuffled_sample_witness :
  dict_wf example_categories
  /\ dict_get "choose" example_config = Some "1"
  /\ PyStr.py_int "1" = Some 1
  /\ 0 <= 1
  /\ exists results s',
       generate_shuffled example_config example_categories example_state
       = Ok results s'
       /\ dict_keys results = dict_keys example_categories
       /\ forall C pictures,
            dict_get C example_categories = Some pictures ->
            exists sample,
              dict_get C results = Some sample
              /\ length sample = Nat.min (Z.to_nat 1) (length pictures)
              /\ sample ⊆ pictures
              /\ (Z.of_nat (length pictures) <= 1 -> sample ≡ₚ pictures).
Proof.
  assert (H1 : dict_wf example_categories) by wf_by_computation.
  assert (H2 : dict_get "choose" example_config = Some "1") by reflexivity.
  assert (H3 : PyStr.py_int "1" = Some 1) by reflexivity.
  assert (H4 : 0 <= 1) by lia.
  exact (conj H1 (conj H2 (conj H3 (conj H4
    (generate_shuffled_sample example_config example_categories "1" 1
       example_state H1 H2 H3 H4))))).
Defined.

Lemma prime_templates_generic_witness :
  let before : dict string := [("body.heading.md", "Samples")] in
  let after : dict string := [("notes.md", "{date}")] in
  let result := [("body.heading.md", VStr "Samples")] in
  dict_get "sources.md" handlers = None
  /\ substitutable "Sources: {credits}" example_config = true
  /\ prime_templates example_config handlers before example_state
     = Ok result example_state
  /\ exists stored s1',
       prime_templates example_config handlers
         (before ++ [("sources.md", "Sources: {credits}")])%list example_state
       = Ok (dict_set "sources.md" (VStr stored) result) s1'
       /\ prime_templates example_config handlers
            (before ++ ("sources.md", "Sources: {credits}") :: after)%list
            example_state
          = foldM (prime_template example_config handlers)
                  (dict_set "sources.md" (VStr stored) result) after s1'
       /\ ((Format.format "Sources: {credits}" example_config = Returns stored
            /\ s1' = example_state)
           \/ (exists key,
                 Format.format "Sources: {credits}" example_config
                 = Raises (KeyError key)
                 /\ stored = "Sources: {credits}"
                 /\ s1' = set_stdout
                            (stdout example_state
                             ++ [warn_missing_variable "sources.md" key])
                            example_state)).
Proof.
  intros before after result.
  assert (H1 : dict_get "sources.md" handlers = None) by reflexivity.
  assert (H2 : substitutable "Sources: {credits}" example_config = true)
    by reflexivity.
  assert (H3 : prime_templates example_config handlers before example_state
               = Ok result example_state) by reflexivity.
  exact (conj H1 (conj H2 (conj H3
    (prime_templates_generic example_config handlers before after
       "sources.md" "Sources: {credits}" example_state example_state result
       H1 H2 H3)))).
Defined.

Lemma prime_templates_missing_witness :
  dict_get "missing" example_config = None
  /\ dict_get "notes.md" handlers = None
  /\ prime_templates example_config handlers [("notes.md", "{missing}")]
       example_state
     = Ok [("notes.md", VStr "{missing}")]
          (set_stdout
             (stdout example_state
              ++ ["Warning: Template " ++ "notes.md"
                  ++ " needs variable 'missing' that's not in config. Using template as-is."])
             example_state).
Proof.
  assert (H1 : dict_get "missing" example_config = None) by reflexivity.
  assert (H2 : dict_get "notes.md" handlers = None) by reflexivity.
  exact (conj H1 (conj H2
    (prime_templates_missing example_config handlers "notes.md" example_state
       H1 H2))).
Defined.

Lemma handle_category_keys_witness :
  exists v s',
    handle_category "category.md" "- {filename}" example_config example_state
    = Ok v s'
    /\ exists categories results,
         categorical_wallpapers (inr []) example_state
         = Ok categories example_state
         /\ v = VDict results
         /\ dict_wf results
         /\ dict_keys results
            = map (fun category : string => category ++ "/README.md")
                  (dict_keys categories)
         /\ (forall category : string,
               category ∈ dict_keys categories ->
               dict_mem (category ++ "/README.md") results = true).
Proof.
  eexists _, _.
  refine (let H := _ in
          conj H (handle_category_keys "category.md" "- {filename}"
                    example_config example_state _ _ H)).
  Unshelve. vm_compute. reflexivity.
Defined.

Lemma full_document_sequence_witness :
  let config := dict_set "dry" "True" example_config in
  let templates := default [] (templates_dir example_state) in
  exists primed s1,
    prime_templates (dict_set "date" "2026-11-05" config) handlers templates
      example_state
    = Ok primed s1
    /\ (forall h bh bc so c,
          dict_get "heading.md" primed = Some h ->
          dict_get "body.heading.md" primed = Some bh ->
          dict_get "body.category.md" primed = Some bc ->
          dict_get "sources.md" primed = Some so ->
          dict_get "category.md" primed = Some c ->
          compose primed s1 = Ok ([h; bh; bc; so], c) s1
          /\ main config "2026-11-05" templates example_state
             = emit (dict_set "date" "2026-11-05" config) [h; bh; bc; so] c s1)
    /\ (forall name,
          name ∈ required_templates ->
          dict_get name primed = None ->
          exists missing,
            missing ∈ required_templates /\ dict_get missing primed = None
            /\ main config "2026-11-05" templates example_state
               = Raise (KeyError missing) s1).
Proof.
  intros config templates. eexists _, _.
  refine (let H := _ in
          conj H (full_document_sequence config "2026-11-05" templates
                    example_state _ _ H)).
  Unshelve. vm_compute. reflexivity.
Defined.

Lemma create_default_templates_idempotent_witness :
  exists s1,
    create_default_templates example_fresh_state = Ok tt s1
    /\ exists s2,
         create_default_templates s1 = Ok tt s2
         /\ root s2 = root s1
         /\ templates_dir s2 = templates_dir s1
         /\ manifest s2 = manifest s1
         /\ (forall members,
               manifest example_fresh_state = ManifestJson (JObject members) ->
               s2 = s1
               /\ forall name,
                    name ∈ dict_keys members -> template_present s1 name).
Proof.
  eexists _.
  refine (let H := _ in
          conj H (create_default_templates_idempotent example_fresh_state _ H)).
  Unshelve. vm_compute. reflexivity.
Defined.

Lemma bootstrap_without_manifest_witness :
  (manifest example_bare_state = ManifestAbsent
   \/ manifest example_bare_state = ManifestInvalid)
  /\ let files := default [] (templates_dir example_bare_state) in
     exists warning templates,
       (warning = warn_manifest_absent \/ warning = warn_manifest_invalid)
       /\ let s1 := set_stdout (stdout example_bare_state ++ [warning])
                      (set_templates_dir (Some files) example_bare_state) in
          create_default_templates example_bare_state = Ok tt s1
          /\ get_templates example_bare_state = Ok templates s1
          /\ (forall name, dict_get name templates = dict_get name files)
          /\ (dict_wf files -> templates = files).
Proof.
  assert (H : manifest example_bare_state = ManifestAbsent
              \/ manifest example_bare_state = ManifestInvalid)
    by (left; reflexivity).
  exact (conj H (bootstrap_without_manifest example_bare_state H)).
Defined.

Lemma handle_body_choose_zero_witness :
  let config := dict_set "choose" "0" example_config in
  dict_get "choose" config = Some "0"
  /\ dict_get "exclude" config = Some "urban:space"
  /\ dict_get "spacing" config = Some "2"
  /\ PyStr.py_int "2" = Some 2
  /\ dict_get "browse" config = Some "True"
  /\ let spacing := PyStr.str_repeat nl 2 in
     exists categories pieces s1 s',
       categorical_wallpapers (inl "urban:space") example_state
       = Ok categories example_state
       /\ generate_shuffled config categories example_state
          = Ok (map (fun item => (item.1, [])) categories) s1
       /\ handle_body "body.category.md" "![{random_stem}]({random})" config
            example_state
          = Ok (VStr (PyStr.str_join spacing pieces)) s'
       /\ pieces = flat_map (bare_category spacing "True") (dict_keys categories)
       /\ (forall category, category ∈ dict_keys categories ->
             ("## " ++ category ++ spacing) ∈ pieces)
       /\ draws example_state s'.
Proof.
  intros config.
  assert (H1 : dict_get "choose" config = Some "0") by reflexivity.
  assert (H2 : dict_get "exclude" config = Some "urban:space") by reflexivity.
  assert (H3 : dict_get "spacing" config = Some "2") by reflexivity.
  assert (H4 : PyStr.py_int "2" = Some 2) by reflexivity.
  assert (H5 : dict_get "browse" config = Some "True") by reflexivity.
  exact (conj H1 (conj H2 (conj H3 (conj H4 (conj H5
    (handle_body_choose_zero "body.category.md" "![{random_stem}]({random})"
       config "urban:space" "2" "True" 2 example_state H1 H2 H3 H4 H5)))))).
Defined.

Lemma category_precedence_witness :
  let config := dict_set "category" "misc" example_config in
  dict_wf config
  /\ (forall category earlier picture,
        Format.format "{category}"
          (set_random
             (fold_left set_random earlier (body_merged category config))
             picture)
        = Returns (default category (dict_get "category" config)))
  /\ (forall category picture,
        Format.format "{category}" (picture_merged config category picture)
        = Returns category)
  /\ (forall category,
        Format.format "{category}" (header_merged config category)
        = Returns category)
  /\ ((forall category picture,
         Format.format "{category}"
           (set_random (body_merged category config) picture)
         = Format.format "{category}" (picture_merged config category picture))
      <-> dict_get "category" config = None).
Proof.
  intros config.
  assert (H : dict_wf config) by wf_by_computation.
  exact (conj H (category_precedence config H)).
Defined.

Lemma dry_is_required_witness :
  dict_get "dry" example_config = None
  /\ match script example_config "2026-11-05" example_state with
     | Ok _ _ => False
     | Raise _ s' => root s' = root example_state
     | Unmodelled => True
     end
  /\ (forall templates s0 primed s1 composed s2,
        get_templates example_state = Ok templates s0 ->
        prime_templates (dict_set "date" "2026-11-05" example_config) handlers
          templates s0
        = Ok primed s1 ->
        compose primed s1 = Ok composed s2 ->
        script example_config "2026-11-05" example_state
        = Raise (KeyError "dry") s1).
Proof.
  assert (H : dict_get "dry" example_config = None) by reflexivity.
  exact (conj H (dry_is_required example_config "2026-11-05" example_state H)).
Defined.

(** C10, as stated, fails: this configuration has the four keys the
    body handler reads and no key [dry], and the run ends in line 96
    with the [ValueError] of [int("two")], not with a lookup failure. *)
Lemma script_without_dry_conversion_failure :
  let config := dict_set "spacing" "two" example_config in
  dict_get "dry" config = None
  /\ dict_mem "choose" config = true /\ dict_mem "exclude" config = true
  /\ dict_mem "spacing" config = true /\ dict_mem "browse" config = true
  /\ script config "2026-11-05" example_state
     = Raise ValueError (set_rng [1; 4]%nat example_state).
Proof. repeat split. Qed.
